(** * tg-agent: the conversation store and the agent client of [bot.py]

    A shallow embedding of [ConversationManager], [GPT5Client.call_agent]
    and the handlers of [TelegramBot] that reach them ([process_message],
    [handle_message], [ask_command], [reset_context_command]), with the
    properties the specification states about them and further ones read
    off the code.

    Conventions of the embedding:
    - Python [str] is [string], holding the UTF-8 encoding of the text;
      the case mapping of [str.capitalize] is the ASCII one (the roles the
      bot passes are 'user' and 'assistant'); [str.strip] removes all the
      characters Python counts as white space.
    - [Optional[str]] is [option string]; Python truthiness of such a
      value is [truthy].
    - a [dict] is a [gmap]; a chat id is an integer ([Z]).
    - [datetime.now().isoformat()] is read from the environment: the
      operations that consult the clock take the reading as an argument.
    - [max_size], the [maxlen] of the deques, is a natural number.
    - the [requests] library is the environment of [call_agent]: what
      [session.post] does is a [post_outcome], and [raise_for_status]
      is modelled after the library (it raises on 4xx and 5xx).
    - the chat transport accepts every send; logging is left out.
    - a processing step runs to its end before the next one starts. *)

From stdpp Require Import gmap strings list fin_maps pretty.

Local Open Scope string_scope.
Local Open Scope nat_scope.
Local Open Scope list_scope.
Local Open Scope stdpp_scope.

(** ** Strings *)

(** The line feed, written [\n] in the source. *)
Definition nl : string := String (Ascii.ascii_of_nat 10) EmptyString.

Definition ascii_upper (c : Ascii.ascii) : Ascii.ascii :=
  let n := Ascii.nat_of_ascii c in
  if bool_decide (97 ≤ n ≤ 122)%nat then Ascii.ascii_of_nat (n - 32) else c.

Definition ascii_lower (c : Ascii.ascii) : Ascii.ascii :=
  let n := Ascii.nat_of_ascii c in
  if bool_decide (65 ≤ n ≤ 90)%nat then Ascii.ascii_of_nat (n + 32) else c.

Fixpoint string_map (f : Ascii.ascii → Ascii.ascii) (s : string) : string :=
  match s with
  | EmptyString => EmptyString
  | String c r => String (f c) (string_map f r)
  end.

(** [str.capitalize]: first character upper case, the rest lower case. *)
Definition capitalize (s : string) : string :=
  match s with
  | EmptyString => EmptyString
  | String c r => String (ascii_upper c) (string_map ascii_lower r)
  end.

(** Truthiness of an [Optional[str]]: [None] and the empty string are
    false, every other string is true. *)
Definition truthy (o : option string) : bool :=
  match o with
  | None => false
  | Some s => bool_decide (s ≠ EmptyString)
  end.

(** [needle in haystack] on strings. *)
Fixpoint contains (needle haystack : string) : bool :=
  String.prefix needle haystack ||
  match haystack with
  | EmptyString => false
  | String _ r => contains needle r
  end.

(** ** [collections.deque] with a [maxlen] *)

Module Deque.

Record deque (A : Type) := Mk { maxlen : nat; items : list A }.
Arguments Mk {A} _ _.
Arguments maxlen {A} _.
Arguments items {A} _.

(** [deque(maxlen=n)] *)
Definition new {A} (n : nat) : deque A := Mk n [].

(** [d.append(x)]: the item goes in on the right; a deque that is then
    over its [maxlen] drops its leftmost item. *)
Definition append {A} (d : deque A) (x : A) : deque A :=
  let l := items d ++ [x] in
  Mk (maxlen d) (if bool_decide (maxlen d < length l) then drop 1 l else l).

(** [list(d)] *)
Definition to_list {A} (d : deque A) : list A := items d.

(** What every deque built by [new] and [append] satisfies. *)
Definition bounded {A} (d : deque A) : Prop := length (items d) ≤ maxlen d.

End Deque.

(** ** ConversationManager *)

(** One entry of a context: the dict with keys 'role', 'content' and
    'timestamp'. *)
Record turn := Turn {
  role : string;
  content : string;
  timestamp : string
}.

Definition MAX_CONTEXT_SIZE : nat := 10.
Definition REQUEST_TIMEOUT : Z := 30.

Record ConversationManager := Manager {
  max_size : nat;
  contexts : gmap Z (Deque.deque turn);
  parent_ids : gmap Z string
}.

(** [ConversationManager.__init__] *)
Definition init (max_size : nat) : ConversationManager :=
  Manager max_size ∅ ∅.

(** [ConversationManager.add_message]; [now] is
    [datetime.now().isoformat()]. *)
Definition add_message (self : ConversationManager) (chat_id : Z)
    (role content : string) (message_id : option string) (now : string)
    : ConversationManager :=
  let contexts1 :=
    match contexts self !! chat_id with
    | None => <[chat_id := Deque.new (max_size self)]> (contexts self)
    | Some _ => contexts self
    end in
  let contexts2 :=
    alter (λ d, Deque.append d (Turn role content now)) chat_id contexts1 in
  let parent_ids1 :=
    if bool_decide (role = "assistant") && truthy message_id
    then match message_id with
         | Some mid => <[chat_id := mid]> (parent_ids self)
         | None => parent_ids self
         end
    else parent_ids self in
  Manager (max_size self) contexts2 parent_ids1.

(** [ConversationManager.get_context] *)
Definition get_context (self : ConversationManager) (chat_id : Z)
    : list turn :=
  match contexts self !! chat_id with
  | None => []
  | Some d => Deque.to_list d
  end.

(** [ConversationManager.get_parent_id] *)
Definition get_parent_id (self : ConversationManager) (chat_id : Z)
    : option string :=
  parent_ids self !! chat_id.

(** [ConversationManager.clear_context] *)
Definition clear_context (self : ConversationManager) (chat_id : Z)
    : ConversationManager :=
  let contexts1 :=
    if bool_decide (is_Some (contexts self !! chat_id))
    then delete chat_id (contexts self) else contexts self in
  let parent_ids1 :=
    if bool_decide (is_Some (parent_ids self !! chat_id))
    then delete chat_id (parent_ids self) else parent_ids self in
  Manager (max_size self) contexts1 parent_ids1.

(** One line of the transcript: the body of the [for] loop. *)
Definition format_line (formatted : string) (msg : turn) : string :=
  formatted +:+ capitalize (role msg) +:+ ": " +:+ content msg +:+ nl.

(** [ConversationManager.format_context_for_prompt] *)
Definition format_context_for_prompt (self : ConversationManager)
    (chat_id : Z) : string :=
  let context := get_context self chat_id in
  match context with
  | [] => EmptyString
  | _ => foldl format_line ("Previous conversation:" +:+ nl) context
  end.

(** Lines 220-221 of [process_message]: the prompt handed to the agent,
    the transcript followed by the current message, or the message alone
    when the transcript is empty. *)
Definition render_prompt (self : ConversationManager) (chat_id : Z)
    (user_message : string) : string :=
  let context_str := format_context_for_prompt self chat_id in
  if bool_decide (context_str ≠ EmptyString)
  then context_str +:+ nl +:+ "Current message: " +:+ user_message
  else user_message.

(** *** Sequences of store operations *)

Inductive op :=
  | AddMessage (chat_id : Z) (role content : string)
               (message_id : option string) (now : string)
  | ClearContext (chat_id : Z).

Definition apply_op (self : ConversationManager) (o : op)
    : ConversationManager :=
  match o with
  | AddMessage c r t mid now => add_message self c r t mid now
  | ClearContext c => clear_context self c
  end.

Definition run (self : ConversationManager) (ops : list op)
    : ConversationManager :=
  foldl apply_op self ops.

(** The turns added for [chat] since its context was last cleared, oldest
    first. *)
Definition log_op (chat : Z) (l : list turn) (o : op) : list turn :=
  match o with
  | AddMessage c r t _ now =>
      if bool_decide (c = chat) then l ++ [Turn r t now] else l
  | ClearContext c => if bool_decide (c = chat) then [] else l
  end.

Definition turns_since_reset (chat : Z) (ops : list op) : list turn :=
  foldl (log_op chat) [] ops.

Definition appends_since_reset (chat : Z) (ops : list op) : nat :=
  length (turns_since_reset chat ops).

(** The last [n] items of a list. *)
Definition window {A} (n : nat) (l : list A) : list A :=
  drop (length l - n) l.

(** The arguments of one [add_message] call on a given chat: role,
    content, message id and the clock reading. *)
Definition append_args : Type := string * string * option string * string.

Definition append_to (chat : Z) (a : append_args) : op :=
  let '(r, t, mid, now) := a in AddMessage chat r t mid now.

Definition turn_of (a : append_args) : turn :=
  let '(r, t, _, now) := a in Turn r t now.

(** The specification's reading of the parent pointer: scanning the
    operations from the latest back, the external id of the first
    assistant append on the chat that carried a non-empty one; absent when
    a reset of the chat, or the start, is met first. *)
Fixpoint latest (chat : Z) (newest_first : list op) : option string :=
  match newest_first with
  | [] => None
  | AddMessage c r _ (Some mid) _ :: older =>
      if bool_decide (c = chat ∧ r = "assistant" ∧ mid ≠ EmptyString)
      then Some mid else latest chat older
  | AddMessage _ _ _ None _ :: older => latest chat older
  | ClearContext c :: older =>
      if bool_decide (c = chat) then None else latest chat older
  end.

Definition latest_assistant_id (chat : Z) (ops : list op) : option string :=
  latest chat (reverse ops).

(** ** Exceptions *)

(** The exceptions the code tells apart:
    - [Timeout]: [requests.exceptions.Timeout] and its subclasses;
    - [RequestException]: every other
      [requests.exceptions.RequestException], [HTTPError] included;
    - [Exception]: a plain [Exception(msg)], what [call_agent] raises;
    - [OtherException]: an exception from outside the [requests]
      hierarchy.
    The argument is what [str(e)] returns. *)
Inductive exn :=
  | Timeout (detail : string)
  | RequestException (detail : string)
  | Exception (msg : string)
  | OtherException (detail : string).

(** [str(e)] *)
Definition str (e : exn) : string :=
  match e with
  | Timeout d | RequestException d | Exception d | OtherException d => d
  end.

(** ** The HTTP transport *)

(** The keyword arguments of [session.post]. *)
Record request := Request {
  req_url : string;
  req_json : gmap string string;
  req_timeout : Z;
  req_headers : gmap string string
}.

(** What a body decodes to: an object, whose fields are strings as the
    return annotation [Tuple[str, str]] has it, or a value of another
    Python type (list, str, int, float, bool, NoneType), given by the name
    of the type. *)
Inductive decoded :=
  | JObject (fields : gmap string string)
  | JOther (type_name : string).

(** What the code reads of a [requests.Response]. [json] is the result of
    [response.json()]: the decoded body, or the exception raised for a
    body that does not decode. *)
Record response := Response {
  status_code : Z;
  reason : string;
  url : string;
  json : exn + decoded
}.

(** The [AttributeError] of [x.attr] on a value whose type lacks [attr]. *)
Definition attribute_error (type_name attr : string) : exn :=
  OtherException ("'" +:+ type_name +:+ "' object has no attribute '"
                  +:+ attr +:+ "'").

(** [session.post] returns a response or raises. *)
Definition post_outcome : Type := exn + response.

(** [Response.raise_for_status]: an [HTTPError] for a 4xx or 5xx status,
    nothing otherwise. *)
Definition http_error_msg (r : response) : string :=
  if bool_decide (400 ≤ status_code r < 500)%Z
  then pretty (status_code r) +:+ " Client Error: " +:+ reason r
       +:+ " for url: " +:+ url r
  else if bool_decide (500 ≤ status_code r < 600)%Z
  then pretty (status_code r) +:+ " Server Error: " +:+ reason r
       +:+ " for url: " +:+ url r
  else EmptyString.

Definition raise_for_status (r : response) : exn + unit :=
  let msg := http_error_msg r in
  if bool_decide (msg ≠ EmptyString) then inl (RequestException msg)
  else inr ().

(** ** The chat transport *)

Record Chat := { id : Z; type : string }.
Record Message := { chat : Chat; text : option string }.
Record Update := {
  message : option Message;
  edited_message : option Message
}.

(** What the bot sends to a chat. *)
Inductive action :=
  | SendAction (chat_id : Z) (action : string)
  | ReplyText (chat_id : Z) (text : string).

(** ** The world the bot runs in *)

(** The mutable state: the bot's [conversation_manager], the requests
    posted on the client's session so far, what was sent to the chats, and
    how often the clock was read. *)
Record world := World {
  manager : ConversationManager;
  session : list request;
  outbox : list action;
  ticks : nat
}.

(** The environment: the successive readings of
    [datetime.now().isoformat()], and how the endpoint answers a request
    given the requests it has seen before. *)
Record Env := {
  clock : nat → string;
  transport : list request → request → post_outcome
}.

(** Computations that read and change the world and may raise. *)
Definition M (A : Type) : Type := world → (exn + A) * world.

#[global] Instance M_ret : MRet M := λ A (x : A) w, (inr x, w).

#[global] Instance M_bind : MBind M := λ A B (f : A → M B) (m : M A) w,
  match m w with
  | (inl e, w1) => (inl e, w1)
  | (inr x, w1) => f x w1
  end.

Definition raise {A} (e : exn) : M A := λ w, (inl e, w).

(** A value or an exception computed without touching the world. *)
Definition lift {A} (r : exn + A) : M A := λ w, (r, w).

(** [try: body except ... as e: handler(e)] *)
Definition try_except {A} (body : M A) (handler : exn → M A) : M A := λ w,
  match body w with
  | (inl e, w1) => handler e w1
  | (inr x, w1) => (inr x, w1)
  end.

Definition get_manager : M ConversationManager := λ w, (inr (manager w), w).

Definition set_manager (cm : ConversationManager) : M unit := λ w,
  (inr (), World cm (session w) (outbox w) (ticks w)).

Definition send (a : action) : M unit := λ w,
  (inr (), World (manager w) (session w) (outbox w ++ [a]) (ticks w)).

Section Bot.

Context (env : Env).

(** [datetime.now().isoformat()] *)
Definition now : M string := λ w,
  (inr (clock env (ticks w)),
   World (manager w) (session w) (outbox w) (S (ticks w))).

(** [self.session.post(url, json=..., timeout=..., headers=...)] *)
Definition session_post (req : request) : M response := λ w,
  (transport env (session w) req,
   World (manager w) (session w ++ [req]) (outbox w) (ticks w)).

(** *** GPT5Client *)

Record GPT5Client := Client { access_id : string; base_url : string }.

(** The [payload] dict of [call_agent]. *)
Definition build_payload (message : string)
    (parent_message_id : option string) : gmap string string :=
  let payload : gmap string string := {[ "message" := message ]} in
  if truthy parent_message_id
  then match parent_message_id with
       | Some p => <[ "parent_message_id" := p ]> payload
       | None => payload
       end
  else payload.

Definition build_request (self : GPT5Client) (message : string)
    (parent_message_id : option string) : request :=
  Request (base_url self +:+ "/agents/" +:+ access_id self +:+ "/call")
          (build_payload message parent_message_id)
          REQUEST_TIMEOUT
          {[ "Content-Type" := "application/json" ]}.

(** [GPT5Client.call_agent] *)
Definition call_agent (self : GPT5Client) (message : string)
    (parent_message_id : option string) : M (string * string) :=
  try_except
    (response ← session_post (build_request self message parent_message_id);
     lift (raise_for_status response);;
     data ← lift (json response);
     match data with
     | JObject data =>
         mret (default "No response" (data !! "message"),
               default EmptyString (data !! "id"))
     | JOther type_name => raise (attribute_error type_name "get")
     end)
    (λ e, match e with
          | Timeout _ =>
              raise (Exception "Request timed out. Please try again.")
          | RequestException _ =>
              raise (Exception ("Failed to get response from AI: "
                                +:+ str e))
          | _ => raise e
          end).

(** *** TelegramBot *)

Record TelegramBot := Bot { token : string; gpt_client : GPT5Client }.

(** [self.conversation_manager.add_message(...)] *)
Definition cm_add_message (chat_id : Z) (role content : string)
    (message_id : option string) : M unit :=
  t ← now;
  cm ← get_manager;
  set_manager (add_message cm chat_id role content message_id t).

(** [x or y] on optional messages. *)
Definition or_else {A} (x y : option A) : option A :=
  match x with Some _ => x | None => y end.

(** [TelegramBot.process_message] *)
Definition process_message (self : TelegramBot) (update : Update)
    (user_message : string) : M unit :=
  match or_else (message update) (edited_message update) with
  | None => mret ()
  | Some message =>
      let chat_id := id (chat message) in
      send (SendAction chat_id "typing");;
      try_except
        (cm_add_message chat_id "user" user_message None;;
         cm ← get_manager;
         let full_prompt := render_prompt cm chat_id user_message in
         let parent_id := get_parent_id cm chat_id in
         '(response_text, message_id) ←
           call_agent (gpt_client self) full_prompt parent_id;
         cm_add_message chat_id "assistant" response_text (Some message_id);;
         send (ReplyText chat_id response_text))
        (λ e, send (ReplyText chat_id
                      ("Sorry, an error occurred: " +:+ str e)))
  end.

End Bot.

(** ** Stub endpoints and sample inputs *)

(** An environment whose endpoint answers every request with [o]. *)
Definition stub_env (o : post_outcome) : Env :=
  {| clock := λ n, pretty n; transport := λ _ _, o |}.

(** A freshly started bot: nothing posted, nothing sent, clock unread. *)
Definition fresh_world (cm : ConversationManager) : world := World cm [] [] 0.

Definition sample_client : GPT5Client :=
  Client "acc" "https://agent.example/api".

Definition sample_bot : TelegramBot := Bot "tok" sample_client.

(** An update carrying a new text message in a private chat. *)
Definition text_update (chat_id : Z) (txt : string) : Update :=
  {| message := Some {| chat := {| id := chat_id; type := "private" |};
                        text := Some txt |};
     edited_message := None |}.

(** A store of the default capacity on which chat 7 has the user turn
    "hi" and the assistant turn "yo". *)
Definition hi_yo_store : ConversationManager :=
  run (init MAX_CONTEXT_SIZE)
      [AddMessage 7 "user" "hi" None "t1";
       AddMessage 7 "assistant" "yo" (Some "p1") "t2"].

(** The [message] fields of the requests posted so far. *)
Definition posted_prompts (w : world) : list (option string) :=
  map (λ req, req_json req !! "message") (session w).

(** ** More string methods *)

(** [sep.join(l)] *)
Fixpoint join (sep : string) (l : list string) : string :=
  match l with
  | [] => EmptyString
  | [x] => x
  | x :: rest => x +:+ sep +:+ join sep rest
  end.

(** The string with the given bytes. *)
Definition bytes (l : list nat) : string :=
  foldr (λ n s, String (Ascii.ascii_of_nat n) s) EmptyString l.

(** The characters [str.strip] removes, each in its UTF-8 encoding:
    U+0009 to U+000D, U+001C to U+0020, U+0085, U+00A0, U+1680, U+2000 to
    U+200A, U+2028, U+2029, U+202F, U+205F and U+3000. *)
Definition whitespace : list string :=
  map bytes
    [[9]; [10]; [11]; [12]; [13]; [28]; [29]; [30]; [31]; [32];
     [194; 133]; [194; 160]; [225; 154; 128];
     [226; 128; 128]; [226; 128; 129]; [226; 128; 130]; [226; 128; 131];
     [226; 128; 132]; [226; 128; 133]; [226; 128; 134]; [226; 128; 135];
     [226; 128; 136]; [226; 128; 137]; [226; 128; 138];
     [226; 128; 168]; [226; 128; 169]; [226; 128; 175];
     [226; 129; 159]; [227; 128; 128]].

(** The white-space character a string starts with, if any. *)
Definition leading_space (s : string) : option string :=
  List.find (λ e, String.prefix e s) whitespace.

(** [s.lstrip()]: white-space characters are dropped from the left until
    the string starts with another character; [skip] bytes of a character
    being dropped are still to be passed over. *)
Fixpoint lstrip_from (skip : nat) (s : string) : string :=
  match s with
  | EmptyString => EmptyString
  | String _ r =>
      match skip with
      | S k => lstrip_from k r
      | O =>
          match leading_space s with
          | Some e => lstrip_from (String.length e - 1) r
          | None => s
          end
      end
  end.

Definition lstrip (s : string) : string := lstrip_from 0 s.

(** [s.rstrip()]: what is left of the string once the white-space
    characters at its end are dropped. *)
Fixpoint rstrip (s : string) : string :=
  match s with
  | EmptyString => EmptyString
  | String c r =>
      let t := String c (rstrip r) in
      if bool_decide (t ∈ whitespace) then EmptyString else t
  end.

(** [s.strip()] *)
Definition strip (s : string) : string := rstrip (lstrip s).

(** The scan of [str.replace] for a non-empty [old]: [skip] characters of
    a match just replaced are still to be passed over. *)
Fixpoint replace_from (old new : string) (skip : nat) (s : string) : string :=
  match s with
  | EmptyString => EmptyString
  | String c r =>
      match skip with
      | S k => replace_from old new k r
      | O =>
          if String.prefix old s
          then new +:+ replace_from old new (String.length old - 1) r
          else String c (replace_from old new 0 r)
      end
  end.

Fixpoint interleave (new s : string) : string :=
  match s with
  | EmptyString => EmptyString
  | String c r => String c (new +:+ interleave new r)
  end.

(** [s.replace(old, new)]: every occurrence of [old], found scanning from
    the left without overlap, becomes [new]; an empty [old] matches before
    every character and at the end. *)
Definition replace (old new s : string) : string :=
  match old with
  | EmptyString => new +:+ interleave new s
  | _ => replace_from old new 0 s
  end.

(** ** The handlers of TelegramBot *)

(** What the handlers read of the callback context: [context.args] and
    [context.bot.username]. *)
Record CallbackContext := {
  args : option (list string);
  bot_username : option string
}.

(** [update.effective_chat] for an update that carries a message or an
    edited message, the updates the handlers are registered for. *)
Definition effective_chat (update : Update) : option Chat :=
  chat <$> or_else (message update) (edited_message update).

(** The [AttributeError] of an attribute access on [None]. *)
Definition none_has_no (attr : string) : exn :=
  OtherException ("'NoneType' object has no attribute '" +:+ attr +:+ "'").

(** [update.message.reply_text(text)] *)
Definition reply_to_message (update : Update) (text : string) : M unit :=
  match message update with
  | None => raise (none_has_no "reply_text")
  | Some msg => send (ReplyText (id (chat msg)) text)
  end.

(** [TelegramBot.reset_context_command] *)
Definition reset_context_command (update : Update) : M unit :=
  match effective_chat update with
  | None => raise (none_has_no "id")
  | Some c =>
      let chat_id := id c in
      cm ← get_manager;
      set_manager (clear_context cm chat_id);;
      reply_to_message update "Conversation context has been cleared."
  end.

(** [TelegramBot.ask_command] *)
Definition ask_command (env : Env) (self : TelegramBot) (update : Update)
    (context : CallbackContext) : M unit :=
  match args context with
  | None | Some [] =>
      reply_to_message update "Please provide a question after /ask command."
  | Some l =>
      let question := join " " l in
      process_message env self update question
  end.

(** [TelegramBot.handle_message] *)
Definition handle_message (env : Env) (self : TelegramBot) (update : Update)
    (context : CallbackContext) : M unit :=
  match or_else (message update) (edited_message update) with
  | None => mret ()
  | Some message =>
      if negb (truthy (text message)) then mret ()
      else
        let message_text := default EmptyString (text message) in
        if bool_decide (type (chat message) = "private")
        then process_message env self update message_text
        else if bool_decide (type (chat message) ∈ ["group"; "supergroup"])
        then
          match bot_username context with
          | Some username =>
              if bool_decide (username ≠ EmptyString)
                 && contains ("@" +:+ username) message_text
              then
                let text :=
                  strip (replace ("@" +:+ username) EmptyString message_text)
                in
                if bool_decide (text ≠ EmptyString)
                then process_message env self update text
                else mret ()
              else mret ()
          | None => mret ()
          end
        else mret ()
  end.

(** An update carrying a new text message in a chat of the given type. *)
Definition chat_update (chat_id : Z) (chat_type txt : string) : Update :=
  {| message := Some {| chat := {| id := chat_id; type := chat_type |};
                        text := Some txt |};
     edited_message := None |}.

(** What the specification says of a processing step whose agent call
    failed with [e]: the step ends normally, the store is the one before
    the step with the user's turn added, so the history of the chat is the
    former one with that turn appended, its parent id and the other chats
    are as before, and the chat is told of the error. *)
Definition records_only_user_turn (env : Env) (self : TelegramBot)
    (update : Update) (user_message : string) (w : world) (chat_id : Z)
    (e : exn) : Prop :=
  let cm1 := add_message (manager w) chat_id "user" user_message None
               (clock env (ticks w)) in
  let res := process_message env self update user_message w in
  fst res = inr () ∧
  manager (snd res) = cm1 ∧
  get_context (manager (snd res)) chat_id
  = Deque.to_list
      (Deque.append
         (default (Deque.new (max_size (manager w)))
                  (contexts (manager w) !! chat_id))
         (Turn "user" user_message (clock env (ticks w)))) ∧
  get_parent_id (manager (snd res)) chat_id
  = get_parent_id (manager w) chat_id ∧
  (∀ c, c ≠ chat_id →
        get_context (manager (snd res)) c = get_context (manager w) c ∧
        get_parent_id (manager (snd res)) c = get_parent_id (manager w) c) ∧
  outbox (snd res)
  = outbox w ++ [SendAction chat_id "typing";
                 ReplyText chat_id ("Sorry, an error occurred: " +:+ str e)].

(** ** Vocabulary of the further properties *)

(** The chat an operation is on. *)
Definition op_chat (o : op) : Z :=
  match o with
  | AddMessage c _ _ _ _ => c
  | ClearContext c => c
  end.

(** An operation that is neither a clearing of [chat] nor an assistant
    turn on [chat] with a message id that counts as true. *)
Definition keeps_parent (chat : Z) (o : op) : bool :=
  match o with
  | AddMessage c r _ mid _ =>
      negb (bool_decide (c = chat) && bool_decide (r = "assistant")
            && truthy mid)
  | ClearContext c => negb (bool_decide (c = chat))
  end.

(** The lines of a transcript, one per turn, joined. *)
Definition transcript_line (msg : turn) : string :=
  capitalize (role msg) +:+ ": " +:+ content msg +:+ nl.

Definition transcript_lines (context : list turn) : string :=
  foldr (λ msg rest, transcript_line msg +:+ rest) EmptyString context.

(** Whether a text mentions the bot, as [handle_message] tests it. *)
Definition mentions (context : CallbackContext) (txt : string) : bool :=
  match bot_username context with
  | Some username =>
      bool_decide (username ≠ EmptyString) && contains ("@" +:+ username) txt
  | None => false
  end.

(** A stub endpoint that answers every request with status 200 and the
    object with "message" "hi there" and "id" "abc123". *)
Definition hi_there_env : Env :=
  stub_env (inr (Response 200 "OK" "u"
                   (inr (JObject {[ "message" := "hi there";
                                    "id" := "abc123" ]})))).

(** The callback context of a bot named "bot", with the arguments of a
    command. *)
Definition bot_context (l : list string) : CallbackContext :=
  {| args := Some l; bot_username := Some "bot" |}.

(** An update carrying an edited text message. *)
Definition edited_update (chat_id : Z) (chat_type txt : string) : Update :=
  {| message := None;
     edited_message :=
       Some {| chat := {| id := chat_id; type := chat_type |};
               text := Some txt |} |}.

(** * Properties *)

(** ** The bounded window *)

Section Window.

Context {A : Type}.
Implicit Types (l : list A) (d : Deque.deque A).

Lemma length_window n l : length (window n l) = n `min` length l.
Proof. unfold window. rewrite length_drop. lia. Qed.

Lemma window_short n l : length l ≤ n → window n l = l.
Proof.
  intros Hle. unfold window.
  by replace (length l - n) with 0 by lia.
Qed.

(** Appending to a deque whose items are the window of [l] leaves the
    window of [l] extended by the new item. *)
Lemma append_window n l x :
  Deque.items (Deque.append (Deque.Mk n (window n l)) x)
  = window n (l ++ [x]).
Proof.
  unfold Deque.append; simpl.
  rewrite length_app, length_window; simpl.
  case_bool_decide as Hfull.
  - unfold window. rewrite length_app; simpl.
    destruct (decide (n = 0)) as [->|Hn].
    + rewrite !Nat.sub_0_r, drop_all; simpl.
      by rewrite drop_ge by (rewrite length_app; simpl; lia).
    + rewrite (drop_app_le l [x]) by lia.
      rewrite (drop_app_le (drop _ l) [x] 1) by (rewrite length_drop; lia).
      rewrite drop_drop. f_equal. f_equal. lia.
  - rewrite window_short by lia.
    rewrite window_short; [done|]. rewrite length_app; simpl. lia.
Qed.

Lemma append_bounded d x : Deque.bounded d → Deque.bounded (Deque.append d x).
Proof.
  unfold Deque.bounded, Deque.append; simpl. intros Hd.
  case_bool_decide as Hfull; rewrite ?length_drop; rewrite length_app in *;
    simpl in *; lia.
Qed.

End Window.

Lemma run_snoc s ops o : run s (ops ++ [o]) = apply_op (run s ops) o.
Proof. unfold run. by rewrite foldl_app. Qed.

Lemma turns_since_reset_snoc c ops o :
  turns_since_reset c (ops ++ [o]) = log_op c (turns_since_reset c ops) o.
Proof. unfold turns_since_reset. by rewrite foldl_app. Qed.

Lemma max_size_run N ops : max_size (run (init N) ops) = N.
Proof.
  induction ops as [|o ops IH] using rev_ind; [done|].
  rewrite run_snoc. by destruct o.
Qed.

Lemma contexts_add_message s c r t mid now c' :
  contexts (add_message s c r t mid now) !! c' =
  if bool_decide (c = c')
  then Some (Deque.append
               (default (Deque.new (max_size s)) (contexts s !! c))
               (Turn r t now))
  else contexts s !! c'.
Proof.
  unfold add_message; simpl. case_bool_decide as Hc.
  - subst c'. rewrite lookup_alter_eq.
    destruct (contexts s !! c) as [d|] eqn:Hd; simpl.
    + by rewrite Hd.
    + by rewrite lookup_insert_eq.
  - rewrite lookup_alter_ne by done.
    destruct (contexts s !! c); [done|]. by rewrite lookup_insert_ne.
Qed.

Lemma contexts_clear_context s c c' :
  contexts (clear_context s c) !! c' =
  if bool_decide (c = c') then None else contexts s !! c'.
Proof.
  unfold clear_context; simpl.
  case_bool_decide as Hin; case_bool_decide as Hc; subst.
  - apply lookup_delete_eq.
  - by apply lookup_delete_ne.
  - destruct (contexts s !! c') eqn:E; [|done]. destruct Hin; eauto.
  - done.
Qed.

(** The deque of a chat holds the window of the turns appended since the
    chat's last reset; a chat without a deque has no such turns. *)
Lemma contexts_run N ops c :
  match contexts (run (init N) ops) !! c with
  | Some d => d = Deque.Mk N (window N (turns_since_reset c ops))
  | None => turns_since_reset c ops = []
  end.
Proof.
  induction ops as [|o ops IH] using rev_ind; [done|].
  rewrite run_snoc, turns_since_reset_snoc.
  destruct o as [c' r t mid now|c']; cbn [apply_op log_op].
  - rewrite contexts_add_message, max_size_run.
    case_bool_decide as Hc; [subst c'|done].
    destruct (contexts (run (init N) ops) !! c) as [d|]; simpl.
    + subst d. unfold Deque.append at 1. f_equal.
      apply (append_window N).
    + rewrite IH.
      change (Deque.new N) with (Deque.Mk N (window N (@nil turn))).
      unfold Deque.append at 1. f_equal. apply (append_window N).
  - rewrite contexts_clear_context.
    case_bool_decide; [done|]. apply IH.
Qed.

Lemma get_context_run N ops c :
  get_context (run (init N) ops) c = window N (turns_since_reset c ops).
Proof.
  unfold get_context. pose proof (contexts_run N ops c) as H.
  destruct (contexts (run (init N) ops) !! c) as [d|].
  - by subst d.
  - by rewrite H.
Qed.

(** C1. Whatever appends and resets a store of capacity [N] has seen, the
    history of every chat has at most [N] turns, and exactly [N] once [N]
    or more turns were appended for the chat since its last reset. The
    capacity stays the one the store was created with, 10 by default. *)
Theorem history_length_bounded (N : nat) (ops : list op) (chat : Z) :
  length (get_context (run (init N) ops) chat) ≤ N ∧
  (N ≤ appends_since_reset chat ops →
   length (get_context (run (init N) ops) chat) = N) ∧
  max_size (run (init N) ops) = N ∧
  MAX_CONTEXT_SIZE = 10.
Proof.
  rewrite get_context_run, length_window, max_size_run.
  unfold appends_since_reset. repeat split; lia || done.
Qed.

Lemma history_length_bounded_witness :
  let ops := [AddMessage 7 "user" "a" None "t1";
              ClearContext 7;
              AddMessage 7 "user" "b" None "t2";
              AddMessage 5 "user" "c" None "t3";
              AddMessage 7 "assistant" "d" (Some "m1") "t4";
              AddMessage 7 "user" "e" None "t5"] in
  2 ≤ appends_since_reset 7 ops ∧
  length (get_context (run (init 2) ops) 7) = 2.
Proof.
  intros ops.
  assert (H : 2 ≤ appends_since_reset 7 ops) by (vm_compute; lia).
  split; [exact H|].
  exact (proj1 (proj2 (history_length_bounded 2 ops 7)) H).
Defined.

Lemma turns_since_reset_appends chat (ts : list append_args) :
  turns_since_reset chat (map (append_to chat) ts) = map turn_of ts.
Proof.
  induction ts as [|a ts IH] using rev_ind; [done|].
  rewrite !map_app; simpl. rewrite turns_since_reset_snoc, IH.
  destruct a as [[[r t] mid] now]; simpl.
  by rewrite bool_decide_eq_true_2.
Qed.

(** C2. Eviction is first in, first out: [N + 1] turns appended in order
    to an empty store of capacity [N] leave the history with all of them
    but the first, in the order of insertion. *)
Theorem eviction_fifo (N : nat) (chat : Z) (ts : list append_args) :
  length ts = S N →
  get_context (run (init N) (map (append_to chat) ts)) chat
  = drop 1 (map turn_of ts).
Proof.
  intros Hlen. rewrite get_context_run, turns_since_reset_appends.
  unfold window. rewrite length_map, Hlen. f_equal. lia.
Qed.

Lemma eviction_fifo_witness :
  let ts : list append_args :=
    [("user", "T1", None, "t1");
     ("assistant", "T2", Some "m2", "t2");
     ("user", "T3", None, "t3")] in
  length ts = 3 ∧
  get_context (run (init 2) (map (append_to 7) ts)) 7
  = [Turn "assistant" "T2" "t2"; Turn "user" "T3" "t3"].
Proof.
  intros ts. split; [reflexivity|].
  exact (eviction_fifo 2 7 ts eq_refl).
Defined.

(** ** The parent pointer *)

Lemma parent_ids_add_message s c r t mid now c' :
  parent_ids (add_message s c r t mid now) !! c' =
  if bool_decide (c = c') && bool_decide (r = "assistant") && truthy mid
  then mid else parent_ids s !! c'.
Proof.
  unfold add_message; simpl.
  destruct (bool_decide (r = "assistant")); simpl;
    [|by rewrite andb_false_r].
  rewrite andb_true_r.
  destruct mid as [m|]; simpl; [|by rewrite andb_false_r].
  destruct (bool_decide (m ≠ EmptyString)); simpl;
    [|by rewrite andb_false_r].
  rewrite andb_true_r. case_bool_decide as Hc.
  - subst. apply lookup_insert_eq.
  - by apply lookup_insert_ne.
Qed.

Lemma parent_ids_clear_context s c c' :
  parent_ids (clear_context s c) !! c' =
  if bool_decide (c = c') then None else parent_ids s !! c'.
Proof.
  unfold clear_context; simpl.
  case_bool_decide as Hin; case_bool_decide as Hc; subst.
  - apply lookup_delete_eq.
  - by apply lookup_delete_ne.
  - destruct (parent_ids s !! c') eqn:E; [|done]. destruct Hin; eauto.
  - done.
Qed.

Lemma get_parent_id_run N ops chat :
  get_parent_id (run (init N) ops) chat = latest_assistant_id chat ops.
Proof.
  unfold get_parent_id, latest_assistant_id.
  induction ops as [|o ops IH] using rev_ind; [done|].
  rewrite run_snoc, reverse_snoc.
  destruct o as [c r t mid now|c]; cbn [apply_op latest].
  - rewrite parent_ids_add_message, IH.
    destruct mid as [m|]; simpl; [|by rewrite andb_false_r].
    destruct (bool_decide_reflect (c = chat)),
             (bool_decide_reflect (r = "assistant")),
             (bool_decide_reflect (m ≠ EmptyString)); simpl;
      first [ by rewrite bool_decide_eq_true_2
            | by rewrite bool_decide_eq_false_2 by tauto ].
  - rewrite parent_ids_clear_context, IH. done.
Qed.

(** C4. The parent id of a chat is the external id of the most recent
    assistant append that carried a non-empty one, and absent when there
    was none; an assistant append overwrites it exactly when it carries a
    non-empty id, and a user append never changes it. *)
Theorem parent_id_latest_assistant (N : nat) (ops : list op) (chat : Z) :
  get_parent_id (run (init N) ops) chat = latest_assistant_id chat ops ∧
  get_parent_id (init N) chat = None ∧
  (∀ s t mid now,
     get_parent_id (add_message s chat "assistant" t mid now) chat
     = if truthy mid then mid else get_parent_id s chat) ∧
  (∀ s t mid now,
     get_parent_id (add_message s chat "user" t mid now) chat
     = get_parent_id s chat).
Proof.
  split; [apply get_parent_id_run|]. split; [done|].
  unfold get_parent_id.
  split; intros s t mid now; rewrite parent_ids_add_message.
  - by rewrite !bool_decide_eq_true_2 by done.
  - rewrite (bool_decide_eq_false_2 ("user" = "assistant")) by done.
    by rewrite andb_false_r.
Qed.

(** ** ClearContext *)

(** C5. After a reset the chat has an empty history and no parent id,
    whatever the store held; a second reset, or a reset of a chat the
    store does not know, leaves the store as it is. *)
Theorem reset_clears_and_is_idempotent (s : ConversationManager) (chat : Z) :
  get_context (clear_context s chat) chat = [] ∧
  get_parent_id (clear_context s chat) chat = None ∧
  clear_context (clear_context s chat) chat = clear_context s chat ∧
  (contexts s !! chat = None → parent_ids s !! chat = None →
   clear_context s chat = s).
Proof.
  assert (Hunknown : ∀ s', contexts s' !! chat = None →
            parent_ids s' !! chat = None → clear_context s' chat = s').
  { intros [n cs ps]; simpl. intros Hc Hp. unfold clear_context; simpl.
    rewrite Hc, Hp.
    rewrite !bool_decide_eq_false_2 by (intros [? ?]; done). done. }
  assert (Hc : contexts (clear_context s chat) !! chat = None).
  { rewrite contexts_clear_context. by rewrite bool_decide_eq_true_2. }
  assert (Hp : parent_ids (clear_context s chat) !! chat = None).
  { rewrite parent_ids_clear_context. by rewrite bool_decide_eq_true_2. }
  split; [unfold get_context; by rewrite Hc|].
  split; [done|]. split; [by apply Hunknown|apply Hunknown].
Qed.

Lemma reset_clears_and_is_idempotent_witness :
  contexts (init 10) !! 7%Z = None ∧ parent_ids (init 10) !! 7%Z = None ∧
  clear_context (init 10) 7 = init 10.
Proof.
  assert (Hc : contexts (init 10) !! 7%Z = None) by reflexivity.
  assert (Hp : parent_ids (init 10) !! 7%Z = None) by reflexivity.
  split; [exact Hc|]. split; [exact Hp|].
  exact (proj2 (proj2 (proj2
           (reset_clears_and_is_idempotent (init 10) 7))) Hc Hp).
Defined.

(** ** The agent client *)

Section Agent.

Context (env : Env).
Implicit Types (self : GPT5Client) (w : world) (r : response).

(** [call_agent] posts one request and touches nothing but the session. *)
Lemma call_agent_world self message parent w :
  snd (call_agent env self message parent w)
  = World (manager w) (session w ++ [build_request self message parent])
          (outbox w) (ticks w).
Proof.
  unfold call_agent, try_except, session_post, lift, raise,
    mbind, M_bind, mret, M_ret; simpl.
  destruct (transport env _ _) as [[d|d|d|d]|r]; simpl; try done.
  destruct (raise_for_status r) as [e|[]] eqn:Hst; simpl.
  - unfold raise_for_status in Hst. case_bool_decide; by simplify_eq.
  - destruct (json r) as [[d|d|d|d]|[data|ty]]; done.
Qed.

Lemma call_agent_post_raises self message parent w e :
  transport env (session w) (build_request self message parent) = inl e →
  fst (call_agent env self message parent w)
  = inl match e with
        | Timeout _ => Exception "Request timed out. Please try again."
        | RequestException d =>
            Exception ("Failed to get response from AI: " +:+ d)
        | _ => e
        end.
Proof.
  intros Hpost.
  unfold call_agent, try_except, session_post, lift, raise,
    mbind, M_bind, mret, M_ret; simpl.
  rewrite Hpost. by destruct e.
Qed.

Lemma http_error_msg_nonempty r :
  (400 ≤ status_code r < 600)%Z → http_error_msg r ≠ EmptyString.
Proof.
  intros Hst. unfold http_error_msg.
  repeat case_bool_decide; try lia;
    destruct (pretty (status_code r)); done.
Qed.

Lemma http_error_msg_empty r :
  ¬ (400 ≤ status_code r < 600)%Z → http_error_msg r = EmptyString.
Proof.
  intros Hst. unfold http_error_msg. repeat case_bool_decide; done || lia.
Qed.

Lemma call_agent_http_error self message parent w r :
  transport env (session w) (build_request self message parent) = inr r →
  (400 ≤ status_code r < 600)%Z →
  fst (call_agent env self message parent w)
  = inl (Exception ("Failed to get response from AI: "
                    +:+ http_error_msg r)).
Proof.
  intros Hpost Hst.
  unfold call_agent, try_except, session_post, lift, raise,
    mbind, M_bind, mret, M_ret; simpl.
  rewrite Hpost. unfold raise_for_status.
  by rewrite bool_decide_eq_true_2 by (by apply http_error_msg_nonempty).
Qed.

Lemma call_agent_returns self message parent w r d :
  transport env (session w) (build_request self message parent) = inr r →
  ¬ (400 ≤ status_code r < 600)%Z →
  json r = inr (JObject d) →
  fst (call_agent env self message parent w)
  = inr (default "No response" (d !! "message"),
         default EmptyString (d !! "id")).
Proof.
  intros Hpost Hst Hjson.
  unfold call_agent, try_except, session_post, lift, raise,
    mbind, M_bind, mret, M_ret; simpl.
  rewrite Hpost. unfold raise_for_status.
  rewrite http_error_msg_empty by done. simpl. by rewrite Hjson.
Qed.

End Agent.

(** C7 (amended). [call_agent] posts exactly one request, with the
    timeout of 30, whatever the outcome. A timeout makes it raise an
    exception with the fixed timed-out message; any other failure of the
    [requests] library, and a response with a 4xx or 5xx status, make it
    raise an exception whose message is a fixed prefix followed by the
    upstream detail. The two messages never coincide. *)
Theorem call_agent_failures (env : Env) (self : GPT5Client)
    (message : string) (parent : option string) (w : world) :
  let req := build_request self message parent in
  let res := call_agent env self message parent w in
  req_timeout req = 30%Z ∧
  session (snd res) = session w ++ [req] ∧
  (∀ d, transport env (session w) req = inl (Timeout d) →
        fst res = inl (Exception "Request timed out. Please try again.")) ∧
  (∀ d, transport env (session w) req = inl (RequestException d) →
        fst res = inl (Exception ("Failed to get response from AI: "
                                  +:+ d))) ∧
  (∀ r, transport env (session w) req = inr r →
        (400 ≤ status_code r < 600)%Z →
        fst res = inl (Exception ("Failed to get response from AI: "
                                  +:+ http_error_msg r))) ∧
  (∀ d, "Request timed out. Please try again."
        ≠ "Failed to get response from AI: " +:+ d).
Proof.
  intros req res. subst req res.
  split; [done|]. split; [by rewrite call_agent_world|].
  split; [intros d Hd; by rewrite (call_agent_post_raises _ _ _ _ _ _ Hd)|].
  split; [intros d Hd; by rewrite (call_agent_post_raises _ _ _ _ _ _ Hd)|].
  split; [intros r Hr Hst; by apply call_agent_http_error|].
  intros d. simpl. discriminate.
Qed.

Lemma call_agent_failures_witness :
  let timed_out := stub_env (inl (Timeout "read timed out")) in
  let refused := stub_env (inl (RequestException "connection refused")) in
  let r500 := Response 500 "Internal Server Error" "u" (inr (JObject ∅)) in
  let w := fresh_world (init 10) in
  (400 ≤ status_code r500 < 600)%Z ∧
  fst (call_agent timed_out sample_client "hello" None w)
  = inl (Exception "Request timed out. Please try again.") ∧
  fst (call_agent refused sample_client "hello" None w)
  = inl (Exception "Failed to get response from AI: connection refused") ∧
  fst (call_agent (stub_env (inr r500)) sample_client "hello" None w)
  = inl (Exception ("Failed to get response from AI: "
                    +:+ "500 Server Error: Internal Server Error for url: u")).
Proof.
  intros timed_out refused r500 w.
  assert (Hst : (400 ≤ status_code r500 < 600)%Z) by (simpl; lia).
  split; [exact Hst|]. split; [|split].
  - exact (proj1 (proj2 (proj2
      (call_agent_failures timed_out sample_client "hello" None w)))
      "read timed out" eq_refl).
  - exact (proj1 (proj2 (proj2 (proj2
      (call_agent_failures refused sample_client "hello" None w))))
      "connection refused" eq_refl).
  - exact (proj1 (proj2 (proj2 (proj2 (proj2
      (call_agent_failures (stub_env (inr r500)) sample_client "hello"
         None w))))) r500 eq_refl Hst).
Defined.

(** C7 as stated fails: a response with status 300 is outside 2xx, and
    [call_agent] returns its decoded body. *)
Lemma call_agent_status_300_returns :
  let r := Response 300 "Multiple Choices" "u"
             (inr (JObject {[ "message" := "pick one" ]})) in
  ¬ (200 ≤ status_code r < 300)%Z ∧
  fst (call_agent (stub_env (inr r)) sample_client "hello" None
         (fresh_world (init 10)))
  = inr ("pick one", EmptyString).
Proof. split; [simpl; lia|reflexivity]. Qed.

(** C8. For a response with a 2xx status whose body decodes to an object,
    [call_agent] returns the object's "message" and "id", with the
    placeholder "No response" for a missing "message" and the empty string
    for a missing "id". *)
Theorem call_agent_success (env : Env) (self : GPT5Client)
    (message : string) (parent : option string) (w : world)
    (r : response) (d : gmap string string) :
  transport env (session w) (build_request self message parent) = inr r →
  (200 ≤ status_code r < 300)%Z →
  json r = inr (JObject d) →
  fst (call_agent env self message parent w)
  = inr (default "No response" (d !! "message"),
         default EmptyString (d !! "id")).
Proof.
  intros Hpost Hst Hjson.
  apply (call_agent_returns env self message parent w r d); [done|lia|done].
Qed.

Lemma call_agent_success_witness :
  let d : gmap string string :=
    {[ "message" := "hi there"; "id" := "abc123" ]} in
  let r := Response 200 "OK" "u" (inr (JObject d)) in
  (200 ≤ status_code r < 300)%Z ∧
  fst (call_agent (stub_env (inr r)) sample_client "hello" None
         (fresh_world (init 10)))
  = inr ("hi there", "abc123").
Proof.
  intros d r.
  assert (Hst : (200 ≤ status_code r < 300)%Z) by (simpl; lia).
  split; [exact Hst|].
  exact (call_agent_success (stub_env (inr r)) sample_client "hello" None
           (fresh_world (init 10)) r d eq_refl Hst eq_refl).
Defined.

(** C10. The body of the request [call_agent] posts has the key
    "parent_message_id" exactly when the parent id given is present and
    not the empty string, and then holds that id. The empty string builds
    the same body as an absent parent id, and it is what [call_agent]
    returns as the id for a response whose object has no "id". *)
Theorem payload_parent_message_id (env : Env) (self : GPT5Client)
    (message : string) (parent : option string) (w : world) :
  let req := build_request self message parent in
  session (snd (call_agent env self message parent w)) = session w ++ [req] ∧
  req_json req !! "message" = Some message ∧
  req_json req !! "parent_message_id"
  = match parent with
    | Some p => if bool_decide (p ≠ EmptyString) then Some p else None
    | None => None
    end ∧
  build_payload message (Some EmptyString) = build_payload message None ∧
  (∀ r d, transport env (session w) req = inr r →
          ¬ (400 ≤ status_code r < 600)%Z →
          json r = inr (JObject d) → d !! "id" = None →
          fst (call_agent env self message parent w)
          = inr (default "No response" (d !! "message"), EmptyString)).
Proof.
  simpl. split; [by rewrite call_agent_world|].
  split; [|split; [|split; [done|]]].
  - unfold build_payload.
    destruct parent as [p|]; simpl; [case_bool_decide|]; by simplify_map_eq.
  - unfold build_payload.
    destruct parent as [p|]; simpl; [case_bool_decide|]; by simplify_map_eq.
  - intros r d Hpost Hst Hjson Hid.
    rewrite (call_agent_returns env self message parent w r d) by done.
    by rewrite Hid.
Qed.

Lemma payload_parent_message_id_witness :
  let d : gmap string string := {[ "message" := "hi there" ]} in
  let r := Response 200 "OK" "u" (inr (JObject d)) in
  ¬ (400 ≤ status_code r < 600)%Z ∧ d !! "id" = None ∧
  fst (call_agent (stub_env (inr r)) sample_client "hello" (Some "p1")
         (fresh_world (init 10)))
  = inr ("hi there", EmptyString).
Proof.
  intros d r.
  assert (Hst : ¬ (400 ≤ status_code r < 600)%Z) by (simpl; lia).
  split; [exact Hst|]. split; [reflexivity|].
  exact (proj2 (proj2 (proj2 (proj2
    (payload_parent_message_id (stub_env (inr r)) sample_client "hello"
       (Some "p1") (fresh_world (init 10))))))
    r d eq_refl Hst eq_refl eq_refl).
Defined.

(** ** Processing a message *)

Lemma format_context_for_prompt_empty s chat :
  format_context_for_prompt s chat = EmptyString ↔ get_context s chat = [].
Proof.
  unfold format_context_for_prompt.
  destruct (get_context s chat) as [|m l]; [done|].
  split; [|done]. intros Hfmt. exfalso. revert Hfmt.
  assert (Hne : ∀ l acc, acc ≠ EmptyString →
            foldl format_line acc l ≠ EmptyString).
  { clear. induction l as [|m l IH]; intros acc Hacc; [done|]. simpl.
    apply IH. unfold format_line. by destruct acc. }
  by apply Hne.
Qed.

(** C9. On a chat without history the prompt is the current message
    itself, with no header and no transcript. *)
Theorem render_prompt_empty_history (s : ConversationManager) (chat : Z)
    (m : string) :
  get_context s chat = [] → render_prompt s chat m = m.
Proof.
  intros Hempty. unfold render_prompt.
  apply format_context_for_prompt_empty in Hempty. rewrite Hempty.
  by rewrite bool_decide_eq_false_2 by (intros Hne; by apply Hne).
Qed.

Lemma render_prompt_empty_history_witness :
  get_context (init MAX_CONTEXT_SIZE) 7 = [] ∧
  render_prompt (init MAX_CONTEXT_SIZE) 7 "hello" = "hello".
Proof.
  split; [reflexivity|].
  exact (render_prompt_empty_history (init MAX_CONTEXT_SIZE) 7 "hello"
           eq_refl).
Defined.

Section Process.

Context (env : Env).
Implicit Types (self : TelegramBot) (w : world).

(** [process_message] unfolded: the typing action, the user turn, then
    the agent call on the store that already holds the user turn. *)
Lemma process_message_unfold self upd msg m w :
  or_else (message upd) (edited_message upd) = Some msg →
  let chat_id := id (chat msg) in
  let cm1 := add_message (manager w) chat_id "user" m None
               (clock env (ticks w)) in
  let w1 := World cm1 (session w)
              (outbox w ++ [SendAction chat_id "typing"]) (S (ticks w)) in
  process_message env self upd m w =
  match call_agent env (gpt_client self) (render_prompt cm1 chat_id m)
          (get_parent_id cm1 chat_id) w1 with
  | (inl e, w2) =>
      send (ReplyText chat_id ("Sorry, an error occurred: " +:+ str e)) w2
  | (inr (response_text, message_id), w2) =>
      (inr (),
       World (add_message (manager w2) chat_id "assistant" response_text
                (Some message_id) (clock env (ticks w2)))
             (session w2) (outbox w2 ++ [ReplyText chat_id response_text])
             (S (ticks w2)))
  end.
Proof.
  intros Hmsg chat_id cm1 w1. unfold process_message. rewrite Hmsg.
  fold chat_id.
  unfold try_except, cm_add_message, now, get_manager, set_manager, send,
    mbind, M_bind, mret, M_ret; simpl.
  fold cm1. fold w1.
  by destruct (call_agent _ _ _ _ w1) as [[e|[rt mid]] w2].
Qed.

(** When the agent call of a processing step raises, the step ends
    normally with the store holding the user's turn and nothing else
    new: the parent id of the chat is the one before the step, and the
    other chats are untouched. *)
Lemma raising_call_records_only_user_turn self upd msg m w e :
  or_else (message upd) (edited_message upd) = Some msg →
  let chat_id := id (chat msg) in
  let cm1 := add_message (manager w) chat_id "user" m None
               (clock env (ticks w)) in
  let w1 := World cm1 (session w)
              (outbox w ++ [SendAction chat_id "typing"]) (S (ticks w)) in
  fst (call_agent env (gpt_client self) (render_prompt cm1 chat_id m)
         (get_parent_id cm1 chat_id) w1) = inl e →
  let res := process_message env self upd m w in
  fst res = inr () ∧
  manager (snd res) = cm1 ∧
  get_context (manager (snd res)) chat_id
  = Deque.to_list
      (Deque.append
         (default (Deque.new (max_size (manager w)))
                  (contexts (manager w) !! chat_id))
         (Turn "user" m (clock env (ticks w)))) ∧
  get_parent_id (manager (snd res)) chat_id
  = get_parent_id (manager w) chat_id ∧
  (∀ c, c ≠ chat_id →
        get_context (manager (snd res)) c = get_context (manager w) c ∧
        get_parent_id (manager (snd res)) c = get_parent_id (manager w) c) ∧
  outbox (snd res)
  = outbox w ++ [SendAction chat_id "typing";
                 ReplyText chat_id ("Sorry, an error occurred: " +:+ str e)].
Proof.
  intros Hmsg chat_id cm1 w1 Hfail res. subst res.
  rewrite (process_message_unfold self upd msg m w Hmsg).
  fold chat_id. fold cm1. fold w1.
  pose proof (call_agent_world env (gpt_client self)
                (render_prompt cm1 chat_id m) (get_parent_id cm1 chat_id) w1)
    as Hw.
  destruct (call_agent _ _ _ _ w1) as [[e'|[rt mid]] w2];
    simpl in Hfail, Hw; [|done].
  simplify_eq. unfold send. subst w1. cbn [fst snd manager outbox].
  split; [done|]. split; [done|]. subst cm1.
  unfold get_context, get_parent_id.
  split; [by rewrite contexts_add_message, bool_decide_eq_true_2|].
  split; [by rewrite parent_ids_add_message, andb_false_r|].
  split; [|by rewrite <- app_assoc].
  intros c Hc. rewrite contexts_add_message, parent_ids_add_message.
  by rewrite bool_decide_eq_false_2, andb_false_r by done.
Qed.

(** C6 (amended). When the agent call of a processing step raises, no
    assistant turn is recorded: the store is the one before the step with
    the user's turn appended, and the parent id is unchanged. The call
    raises on a timeout, on any other exception of the [requests] library
    raised by the post, and on a response with a 4xx or 5xx status. *)
Theorem failed_call_records_only_user_turn self upd msg m w :
  or_else (message upd) (edited_message upd) = Some msg →
  let chat_id := id (chat msg) in
  let cm1 := add_message (manager w) chat_id "user" m None
               (clock env (ticks w)) in
  let w1 := World cm1 (session w)
              (outbox w ++ [SendAction chat_id "typing"]) (S (ticks w)) in
  let prompt := render_prompt cm1 chat_id m in
  let parent := get_parent_id cm1 chat_id in
  let req := build_request (gpt_client self) prompt parent in
  (∀ e, fst (call_agent env (gpt_client self) prompt parent w1) = inl e →
        records_only_user_turn env self upd m w chat_id e) ∧
  (∀ d, transport env (session w) req = inl (Timeout d) →
        records_only_user_turn env self upd m w chat_id
          (Exception "Request timed out. Please try again.")) ∧
  (∀ d, transport env (session w) req = inl (RequestException d) →
        records_only_user_turn env self upd m w chat_id
          (Exception ("Failed to get response from AI: " +:+ d))) ∧
  (∀ r, transport env (session w) req = inr r →
        (400 ≤ status_code r < 600)%Z →
        records_only_user_turn env self upd m w chat_id
          (Exception ("Failed to get response from AI: "
                      +:+ http_error_msg r))).
Proof.
  intros Hmsg chat_id cm1 w1 prompt parent req.
  assert (Hraise : ∀ e,
            fst (call_agent env (gpt_client self) prompt parent w1) = inl e →
            records_only_user_turn env self upd m w chat_id e).
  { intros e He.
    exact (raising_call_records_only_user_turn self upd msg m w e Hmsg He). }
  split; [exact Hraise|].
  split; [|split].
  - intros d Hpost. apply Hraise.
    by rewrite (call_agent_post_raises env _ prompt parent w1 _ Hpost).
  - intros d Hpost. apply Hraise.
    by rewrite (call_agent_post_raises env _ prompt parent w1 _ Hpost).
  - intros r Hpost Hst. apply Hraise.
    by apply (call_agent_http_error env _ prompt parent w1 r Hpost Hst).
Qed.

End Process.

Lemma failed_call_records_only_user_turn_witness :
  let timed_out := stub_env (inl (Timeout "read timed out")) in
  let r500 := Response 500 "Internal Server Error" "u" (inr (JObject ∅)) in
  let w := fresh_world hi_yo_store in
  let history :=
    [Turn "user" "hi" "t1"; Turn "assistant" "yo" "t2";
     Turn "user" "hello" "0"] in
  let res := process_message timed_out sample_bot (text_update 7 "hello")
               "hello" w in
  let res' := process_message (stub_env (inr r500)) sample_bot
                (text_update 7 "hello") "hello" w in
  (400 ≤ status_code r500 < 600)%Z ∧
  (fst res = inr () ∧ get_context (manager (snd res)) 7 = history ∧
   get_parent_id (manager (snd res)) 7 = Some "p1") ∧
  (fst res' = inr () ∧ get_context (manager (snd res')) 7 = history ∧
   get_parent_id (manager (snd res')) 7 = Some "p1").
Proof.
  intros timed_out r500 w history res res'.
  assert (Hst : (400 ≤ status_code r500 < 600)%Z) by (simpl; lia).
  pose proof (proj1 (proj2
                (failed_call_records_only_user_turn timed_out sample_bot
                   (text_update 7 "hello") _ "hello" w eq_refl))
                "read timed out" eq_refl) as H.
  pose proof (proj2 (proj2 (proj2
                (failed_call_records_only_user_turn (stub_env (inr r500))
                   sample_bot (text_update 7 "hello") _ "hello" w eq_refl)))
                r500 eq_refl Hst) as H'.
  split; [exact Hst|]. split.
  - split; [exact (proj1 H)|].
    split; [exact (proj1 (proj2 (proj2 H)))|].
    exact (proj1 (proj2 (proj2 (proj2 H)))).
  - split; [exact (proj1 H')|].
    split; [exact (proj1 (proj2 (proj2 H')))|].
    exact (proj1 (proj2 (proj2 (proj2 H')))).
Defined.

(** C6 as stated fails: a response with status 300 is outside 2xx, yet
    its decoded body is recorded as an assistant turn and its id replaces
    the parent id. *)
Lemma non_2xx_call_records_assistant_turn :
  let r := Response 300 "Multiple Choices" "u"
             (inr (JObject {[ "message" := "pick one"; "id" := "x300" ]})) in
  let res := process_message (stub_env (inr r)) sample_bot
               (text_update 7 "hello") "hello" (fresh_world hi_yo_store) in
  ¬ (200 ≤ status_code r < 300)%Z ∧
  get_parent_id hi_yo_store 7 = Some "p1" ∧
  get_context (manager (snd res)) 7
  = [Turn "user" "hi" "t1"; Turn "assistant" "yo" "t2";
     Turn "user" "hello" "0"; Turn "assistant" "pick one" "1"] ∧
  get_parent_id (manager (snd res)) 7 = Some "x300".
Proof. split; [simpl; lia|]. repeat split. Qed.

(** C3, evaluated on the code. With the history "hi", "yo" and the
    current message "hello", whatever the endpoint does, the prompt that
    [process_message] posts lists the current message as the last line of
    the transcript and again under "Current message": the user turn is
    appended before the prompt is rendered. *)
Theorem process_message_transcript_repeats_current_message (env : Env) :
  let w := fresh_world hi_yo_store in
  let res := process_message env sample_bot (text_update 7 "hello") "hello" w in
  let transcript :=
    "Previous conversation:" +:+ nl +:+
    "User: hi" +:+ nl +:+
    "Assistant: yo" +:+ nl +:+
    "User: hello" +:+ nl in
  head (posted_prompts (snd res))
  = Some (Some (transcript +:+ nl +:+ "Current message: hello")) ∧
  contains "hello" transcript = true.
Proof.
  intros w res transcript. split; [|reflexivity]. subst res.
  rewrite (process_message_unfold env sample_bot (text_update 7 "hello") _
             "hello" w eq_refl).
  match goal with
  | |- context [call_agent env ?c ?p ?q ?w1] =>
      pose proof (call_agent_world env c p q w1) as Hw;
      destruct (call_agent env c p q w1) as [[e|[rt mid]] w2]
  end; simpl in Hw; subst w2; reflexivity.
Qed.

(** * Further properties of the store *)

Lemma get_context_add_message_ne s c r t mid now c' :
  c ≠ c' → get_context (add_message s c r t mid now) c' = get_context s c'.
Proof.
  intros Hne. unfold get_context.
  by rewrite contexts_add_message, bool_decide_eq_false_2.
Qed.

Lemma get_context_clear_context_ne s c c' :
  c ≠ c' → get_context (clear_context s c) c' = get_context s c'.
Proof.
  intros Hne. unfold get_context.
  by rewrite contexts_clear_context, bool_decide_eq_false_2.
Qed.

(** X1. Chats do not share state: operations on other chats, in any number
    and order, leave the history and the parent id of a chat as they
    were. *)
Theorem other_chats_untouched (s : ConversationManager) (ops : list op)
    (chat : Z) :
  Forall (λ o, op_chat o ≠ chat) ops →
  get_context (run s ops) chat = get_context s chat ∧
  get_parent_id (run s ops) chat = get_parent_id s chat.
Proof.
  induction ops as [|o ops IH] using rev_ind; [done|].
  intros [Hops Ho%Forall_inv]%Forall_app.
  destruct (IH Hops) as [IHc IHp]. rewrite run_snoc.
  destruct o as [c r t mid now|c]; simpl in Ho; cbn [apply_op].
  - split.
    + by rewrite get_context_add_message_ne.
    + unfold get_parent_id in *.
      by rewrite parent_ids_add_message, bool_decide_eq_false_2.
  - split.
    + by rewrite get_context_clear_context_ne.
    + unfold get_parent_id in *.
      by rewrite parent_ids_clear_context, bool_decide_eq_false_2.
Qed.

Lemma other_chats_untouched_witness :
  let ops := [AddMessage 5 "user" "a" None "t3";
              AddMessage 5 "assistant" "b" (Some "p5") "t4";
              ClearContext 9] in
  Forall (λ o, op_chat o ≠ 7%Z) ops ∧
  get_context (run hi_yo_store ops) 7
  = [Turn "user" "hi" "t1"; Turn "assistant" "yo" "t2"] ∧
  get_parent_id (run hi_yo_store ops) 7 = Some "p1".
Proof.
  intros ops.
  assert (H : Forall (λ o, op_chat o ≠ 7%Z) ops)
    by (repeat constructor; simpl; lia).
  split; [exact H|].
  exact (other_chats_untouched hi_yo_store ops 7 H).
Defined.

(** X2. Under any interleaving of appends and clearings on any chats, the
    history of a chat in a store of capacity [N] is the last [N] of the
    turns added for that chat since it was last cleared, oldest first. *)
Theorem history_is_last_turns (N : nat) (ops : list op) (chat : Z) :
  get_context (run (init N) ops) chat
  = drop (length (turns_since_reset chat ops) - N)
         (turns_since_reset chat ops).
Proof. apply get_context_run. Qed.

(** X3. The parent id of a chat outlives everything but a clearing of the
    chat and a new assistant turn with an id: in particular it stays when
    the assistant turn that set it has left the window. *)
Theorem parent_id_persists (s : ConversationManager) (ops : list op)
    (chat : Z) :
  forallb (keeps_parent chat) ops = true →
  get_parent_id (run s ops) chat = get_parent_id s chat.
Proof.
  induction ops as [|o ops IH] using rev_ind; [done|].
  rewrite forallb_app; simpl. rewrite andb_true_r.
  intros [Hops Ho]%andb_true_iff. rewrite run_snoc, <- (IH Hops).
  unfold get_parent_id.
  destruct o as [c r t mid now|c]; simpl in Ho; cbn [apply_op];
    apply negb_true_iff in Ho.
  - by rewrite parent_ids_add_message, Ho.
  - by rewrite parent_ids_clear_context, Ho.
Qed.

Lemma parent_id_persists_witness :
  let s := run (init 2) [AddMessage 7 "assistant" "yo" (Some "p1") "t1"] in
  let ops := [AddMessage 7 "user" "a" None "t2";
              AddMessage 7 "assistant" "b" None "t3";
              AddMessage 7 "user" "c" (Some "ignored") "t4"] in
  forallb (keeps_parent 7) ops = true ∧
  get_context (run s ops) 7
  = [Turn "assistant" "b" "t3"; Turn "user" "c" "t4"] ∧
  get_parent_id (run s ops) 7 = Some "p1".
Proof.
  intros s ops. split; [reflexivity|]. split; [reflexivity|].
  exact (parent_id_persists s ops 7 eq_refl).
Defined.

(** X4. In every store reached from an empty one, a recorded parent id is
    never the empty string, and a chat that has one also has a context. *)
Theorem parent_ids_well_formed (N : nat) (ops : list op) (chat : Z)
    (p : string) :
  get_parent_id (run (init N) ops) chat = Some p →
  p ≠ EmptyString ∧ is_Some (contexts (run (init N) ops) !! chat).
Proof.
  unfold get_parent_id. revert p.
  induction ops as [|o ops IH] using rev_ind; [done|].
  intros p. rewrite run_snoc.
  destruct o as [c r t mid now|c]; cbn [apply_op].
  - rewrite parent_ids_add_message, contexts_add_message.
    destruct (bool_decide_reflect (c = chat)) as [->|Hc]; simpl.
    + intros Hp. split; [|by eauto].
      destruct (bool_decide (r = "assistant")); simpl in Hp;
        [|by apply IH].
      destruct mid as [m|]; simpl in Hp; [|by apply IH].
      case_bool_decide; simpl in Hp; [by simplify_eq|by apply IH].
    + apply IH.
  - rewrite parent_ids_clear_context, contexts_clear_context.
    case_bool_decide; [done|apply IH].
Qed.

Lemma parent_ids_well_formed_witness :
  get_parent_id hi_yo_store 7 = Some "p1" ∧
  "p1" ≠ EmptyString ∧ is_Some (contexts hi_yo_store !! 7%Z).
Proof.
  split; [reflexivity|].
  exact (parent_ids_well_formed MAX_CONTEXT_SIZE
           [AddMessage 7 "user" "hi" None "t1";
            AddMessage 7 "assistant" "yo" (Some "p1") "t2"] 7 "p1" eq_refl).
Defined.

(** X5. A turn added right after a clearing starts the chat afresh: the
    history is that turn alone (nothing at all for a capacity of 0), and
    the parent id is the turn's own id if it is an assistant turn with
    one, and absent otherwise. *)
Theorem add_after_clear_starts_afresh (s : ConversationManager) (chat : Z)
    (r t : string) (mid : option string) (now : string) :
  get_context (add_message (clear_context s chat) chat r t mid now) chat
  = (if bool_decide (max_size s = 0) then [] else [Turn r t now]) ∧
  get_parent_id (add_message (clear_context s chat) chat r t mid now) chat
  = (if bool_decide (r = "assistant") && truthy mid then mid else None).
Proof.
  unfold get_context, get_parent_id.
  rewrite contexts_add_message, parent_ids_add_message.
  rewrite contexts_clear_context, parent_ids_clear_context.
  rewrite !bool_decide_eq_true_2 by done. simpl. split; [|done].
  unfold Deque.to_list, Deque.append; simpl.
  destruct (max_size s) as [|n]; [done|].
  by rewrite bool_decide_eq_false_2 by lia.
Qed.

(** * Further properties of the prompt *)

Lemma string_app_assoc (s1 s2 s3 : string) :
  (s1 +:+ s2) +:+ s3 = s1 +:+ s2 +:+ s3.
Proof.
  induction s1 as [|c s1 IH]; [done|].
  change (String c ((s1 +:+ s2) +:+ s3) = String c (s1 +:+ s2 +:+ s3)).
  by rewrite IH.
Qed.

Lemma string_app_nil_r (s : string) : s +:+ EmptyString = s.
Proof.
  induction s as [|c s IH]; [done|].
  change (String c (s +:+ EmptyString) = String c s). by rewrite IH.
Qed.

Lemma foldl_format_line (acc : string) (l : list turn) :
  foldl format_line acc l = acc +:+ transcript_lines l.
Proof.
  revert acc. induction l as [|m l IH]; intros acc; simpl.
  - by rewrite string_app_nil_r.
  - rewrite IH. unfold format_line. fold (transcript_line m).
    by rewrite string_app_assoc.
Qed.

(** X6. For a chat with history the prompt is the header line, then one
    line per turn of the window, oldest first, each the capitalised role,
    a colon and the content, then an empty line and the current message
    under its label. *)
Theorem prompt_shape (s : ConversationManager) (chat : Z) (m : string) :
  get_context s chat ≠ [] →
  render_prompt s chat m
  = "Previous conversation:" +:+ nl +:+
    transcript_lines (get_context s chat) +:+
    nl +:+ "Current message: " +:+ m.
Proof.
  intros Hne. unfold render_prompt.
  rewrite bool_decide_eq_true_2
    by (by rewrite format_context_for_prompt_empty).
  unfold format_context_for_prompt.
  destruct (get_context s chat) as [|t l] eqn:Hctx; [done|].
  rewrite foldl_format_line. by rewrite !string_app_assoc.
Qed.

Lemma prompt_shape_witness :
  get_context hi_yo_store 7 ≠ [] ∧
  render_prompt hi_yo_store 7 "hello"
  = "Previous conversation:" +:+ nl +:+
    ("User: hi" +:+ nl +:+ "Assistant: yo" +:+ nl) +:+
    nl +:+ "Current message: hello".
Proof.
  assert (H : get_context hi_yo_store 7 ≠ []) by done.
  split; [exact H|].
  exact (prompt_shape hi_yo_store 7 "hello" H).
Defined.

(** * Further properties of the agent client *)

Section AgentMore.

Context (env : Env).
Implicit Types (self : GPT5Client) (w : world) (r : response).

(** X7. [call_agent] returns a pair exactly when the endpoint answered
    with a status outside 400-599 and a body that decodes to an object; in
    every other case it raises. For a body that decodes to something else
    (a list, a string, a number, null) what it raises is the
    [AttributeError] of the missing [get]. *)
Theorem call_agent_returns_iff self message parent w :
  ((∃ res, fst (call_agent env self message parent w) = inr res) ↔
   (∃ r d, transport env (session w) (build_request self message parent)
           = inr r ∧
           ¬ (400 ≤ status_code r < 600)%Z ∧ json r = inr (JObject d))) ∧
  (∀ r type_name,
     transport env (session w) (build_request self message parent) = inr r →
     ¬ (400 ≤ status_code r < 600)%Z →
     json r = inr (JOther type_name) →
     fst (call_agent env self message parent w)
     = inl (attribute_error type_name "get")).
Proof.
  split; [split|].
  - intros [res Hres].
    destruct (transport env (session w) (build_request self message parent))
      as [e|r] eqn:Hpost.
    { rewrite (call_agent_post_raises env self message parent w e Hpost)
        in Hres. done. }
    destruct (decide (400 ≤ status_code r < 600)%Z) as [Hst|Hst].
    { rewrite (call_agent_http_error env self message parent w r Hpost Hst)
        in Hres. done. }
    destruct (json r) as [e|[d|ty]] eqn:Hjson; [|by eauto|];
      exfalso; revert Hres;
      unfold call_agent, try_except, session_post, lift, raise,
        mbind, M_bind, mret, M_ret; simpl;
      rewrite Hpost; unfold raise_for_status;
      rewrite http_error_msg_empty by done; simpl; rewrite Hjson.
    + by destruct e.
    + done.
  - intros (r & d & Hpost & Hst & Hjson).
    eexists. by apply (call_agent_returns env self message parent w r d).
  - intros r ty Hpost Hst Hjson.
    unfold call_agent, try_except, session_post, lift, raise,
      mbind, M_bind, mret, M_ret; simpl.
    rewrite Hpost. unfold raise_for_status.
    rewrite http_error_msg_empty by done. simpl. by rewrite Hjson.
Qed.

(** X8. No exception of the [requests] library leaves [call_agent]: what
    it raises is a plain [Exception] or an exception from outside that
    library, and an exception of [session.post] from outside the library
    comes out as it is. *)
Theorem call_agent_raises_no_requests_exception self message parent w e :
  fst (call_agent env self message parent w) = inl e →
  (∀ d, e ≠ Timeout d) ∧ (∀ d, e ≠ RequestException d) ∧
  (∀ d, transport env (session w) (build_request self message parent)
        = inl (OtherException d) → e = OtherException d).
Proof.
  unfold call_agent, try_except, session_post, lift, raise,
    mbind, M_bind, mret, M_ret; simpl.
  destruct (transport env _ _) as [[d|d|d|d]|r]; simpl.
  1-4: intros; simplify_eq; repeat split; intros; congruence.
  destruct (raise_for_status r) as [e'|[]] eqn:Hst; simpl.
  { unfold raise_for_status in Hst. case_bool_decide; simplify_eq.
    simpl. intros; simplify_eq; repeat split; intros; congruence. }
  destruct (json r) as [[d|d|d|d]|[data|ty]]; simpl;
    unfold attribute_error;
    intros; simplify_eq; repeat split; intros; congruence.
Qed.

(** X9. A response with an acceptable status whose body does not decode
    makes [call_agent] raise: the generic failure carrying the decoding
    error when that error belongs to the [requests] library, and the
    decoding error itself when it does not. *)
Theorem call_agent_undecodable_body self message parent w r :
  transport env (session w) (build_request self message parent) = inr r →
  ¬ (400 ≤ status_code r < 600)%Z →
  (∀ d, json r = inl (RequestException d) →
        fst (call_agent env self message parent w)
        = inl (Exception ("Failed to get response from AI: " +:+ d))) ∧
  (∀ d, json r = inl (OtherException d) →
        fst (call_agent env self message parent w)
        = inl (OtherException d)).
Proof.
  intros Hpost Hst.
  unfold call_agent, try_except, session_post, lift, raise,
    mbind, M_bind, mret, M_ret; simpl.
  rewrite Hpost. unfold raise_for_status.
  rewrite http_error_msg_empty by done. simpl.
  split; intros d Hjson; by rewrite Hjson.
Qed.

(** X10. [call_agent] is a stateless wrapper: whether it returns or
    raises, the store, the messages sent to the chats and the clock are
    as before. *)
Theorem call_agent_frame self message parent w :
  manager (snd (call_agent env self message parent w)) = manager w ∧
  outbox (snd (call_agent env self message parent w)) = outbox w ∧
  ticks (snd (call_agent env self message parent w)) = ticks w.
Proof. by rewrite call_agent_world. Qed.

End AgentMore.

Lemma call_agent_returns_iff_witness :
  let d : gmap string string := {[ "message" := "hi there" ]} in
  let r := Response 201 "Created" "u" (inr (JObject d)) in
  let r' := Response 200 "OK" "u" (inr (JOther "list")) in
  let w := fresh_world (init 10) in
  ¬ (400 ≤ status_code r < 600)%Z ∧
  (∃ res, fst (call_agent (stub_env (inr r)) sample_client "hello" None w)
          = inr res) ∧
  ¬ (400 ≤ status_code r' < 600)%Z ∧
  fst (call_agent (stub_env (inr r')) sample_client "hello" None w)
  = inl (OtherException "'list' object has no attribute 'get'").
Proof.
  intros d r r' w.
  assert (Hst : ¬ (400 ≤ status_code r < 600)%Z) by (simpl; lia).
  assert (Hst' : ¬ (400 ≤ status_code r' < 600)%Z) by (simpl; lia).
  split; [exact Hst|]. split; [|split; [exact Hst'|]].
  - apply (proj2 (proj1 (call_agent_returns_iff (stub_env (inr r))
                           sample_client "hello" None w))).
    exists r, d. split; [reflexivity|]. split; [exact Hst|reflexivity].
  - exact (proj2 (call_agent_returns_iff (stub_env (inr r')) sample_client
                    "hello" None w) r' "list" eq_refl Hst' eq_refl).
Defined.

Lemma call_agent_raises_no_requests_exception_witness :
  let env := stub_env (inl (Timeout "read timed out")) in
  let w := fresh_world (init 10) in
  fst (call_agent env sample_client "hello" None w)
  = inl (Exception "Request timed out. Please try again.") ∧
  ∀ d, Exception "Request timed out. Please try again." ≠ Timeout d.
Proof.
  intros env w. split; [reflexivity|].
  exact (proj1 (call_agent_raises_no_requests_exception env sample_client
                  "hello" None w _ eq_refl)).
Defined.

Lemma call_agent_undecodable_body_witness :
  let r := Response 200 "OK" "u" (inl (RequestException "Expecting value")) in
  let w := fresh_world (init 10) in
  ¬ (400 ≤ status_code r < 600)%Z ∧
  fst (call_agent (stub_env (inr r)) sample_client "hello" None w)
  = inl (Exception "Failed to get response from AI: Expecting value").
Proof.
  intros r w.
  assert (Hst : ¬ (400 ≤ status_code r < 600)%Z) by (simpl; lia).
  split; [exact Hst|].
  exact (proj1 (call_agent_undecodable_body (stub_env (inr r)) sample_client
                  "hello" None w r eq_refl Hst) "Expecting value" eq_refl).
Defined.

(** * Further properties of message processing *)

Section ProcessMore.

Context (env : Env).
Implicit Types (self : TelegramBot) (w : world).

(** X11. Whatever the endpoint does, a processing step ends normally,
    posts exactly one request, and sends the typing action followed by
    exactly one reply to the chat of the message, and to no other. *)
Theorem process_message_one_request_one_reply self upd msg m w :
  or_else (message upd) (edited_message upd) = Some msg →
  let res := process_message env self upd m w in
  fst res = inr () ∧
  (∃ req, session (snd res) = session w ++ [req]) ∧
  (∃ reply, outbox (snd res)
            = outbox w ++ [SendAction (id (chat msg)) "typing";
                           ReplyText (id (chat msg)) reply]).
Proof.
  intros Hmsg res. subst res.
  rewrite (process_message_unfold env self upd msg m w Hmsg).
  match goal with
  | |- context [call_agent env ?c ?p ?q ?w1] =>
      pose proof (call_agent_world env c p q w1) as Hw;
      destruct (call_agent env c p q w1) as [[e|[rt mid]] w2]
  end; simpl in Hw; subst w2; simpl;
    (split; [done|]); (split; [by eauto|]);
    eexists; by rewrite <- app_assoc.
Qed.

Lemma process_message_session self upd msg m w :
  or_else (message upd) (edited_message upd) = Some msg →
  let chat_id := id (chat msg) in
  let cm1 := add_message (manager w) chat_id "user" m None
               (clock env (ticks w)) in
  session (snd (process_message env self upd m w))
  = session w ++ [build_request (gpt_client self)
                    (render_prompt cm1 chat_id m)
                    (get_parent_id (manager w) chat_id)].
Proof.
  intros Hmsg chat_id cm1.
  rewrite (process_message_unfold env self upd msg m w Hmsg).
  fold chat_id. fold cm1.
  assert (Hp : get_parent_id cm1 chat_id = get_parent_id (manager w) chat_id).
  { unfold get_parent_id, cm1.
    by rewrite parent_ids_add_message, andb_false_r. }
  rewrite Hp.
  match goal with
  | |- context [call_agent env ?c ?p ?q ?w1] =>
      pose proof (call_agent_world env c p q w1) as Hw;
      destruct (call_agent env c p q w1) as [[e|[rt mid]] w2]
  end; simpl in Hw; by subst w2.
Qed.

Lemma build_payload_parent (m : string) (parent : option string) :
  build_payload m parent !! "parent_message_id"
  = match parent with
    | Some p => if bool_decide (p ≠ EmptyString) then Some p else None
    | None => None
    end.
Proof.
  unfold build_payload.
  destruct parent as [p|]; simpl; [case_bool_decide|]; by simplify_map_eq.
Qed.

(** X12. The one request of a processing step goes to the client's
    endpoint; its "message" is the prompt rendered from the store that
    already holds the user's turn, and its "parent_message_id" is the
    parent id the store had for the chat before the step, left out when
    there is none. *)
Theorem process_message_posts self upd msg m w :
  or_else (message upd) (edited_message upd) = Some msg →
  let chat_id := id (chat msg) in
  let cm1 := add_message (manager w) chat_id "user" m None
               (clock env (ticks w)) in
  ∃ req,
    session (snd (process_message env self upd m w)) = session w ++ [req] ∧
    req_url req
    = base_url (gpt_client self) +:+ "/agents/"
      +:+ access_id (gpt_client self) +:+ "/call" ∧
    req_json req !! "message" = Some (render_prompt cm1 chat_id m) ∧
    req_json req !! "parent_message_id"
    = match get_parent_id (manager w) chat_id with
      | Some p => if bool_decide (p ≠ EmptyString) then Some p else None
      | None => None
      end.
Proof.
  intros Hmsg chat_id cm1. eexists.
  split; [apply (process_message_session self upd msg m w Hmsg)|].
  split; [done|]. fold chat_id. simpl.
  split; [|apply build_payload_parent].
  unfold build_payload.
  destruct (get_parent_id (manager w) chat_id) as [p|]; simpl;
    [case_bool_decide|]; by simplify_map_eq.
Qed.

Lemma successful_step_manager self upd msg m w rt mid :
  or_else (message upd) (edited_message upd) = Some msg →
  let chat_id := id (chat msg) in
  let cm1 := add_message (manager w) chat_id "user" m None
               (clock env (ticks w)) in
  let w1 := World cm1 (session w)
              (outbox w ++ [SendAction chat_id "typing"]) (S (ticks w)) in
  fst (call_agent env (gpt_client self) (render_prompt cm1 chat_id m)
         (get_parent_id cm1 chat_id) w1) = inr (rt, mid) →
  snd (process_message env self upd m w)
  = World (add_message cm1 chat_id "assistant" rt (Some mid)
             (clock env (S (ticks w))))
          (session w ++ [build_request (gpt_client self)
                           (render_prompt cm1 chat_id m)
                           (get_parent_id cm1 chat_id)])
          (outbox w ++ [SendAction chat_id "typing"; ReplyText chat_id rt])
          (S (S (ticks w))).
Proof.
  intros Hmsg chat_id cm1 w1 Hok.
  rewrite (process_message_unfold env self upd msg m w Hmsg).
  fold chat_id. fold cm1. fold w1.
  pose proof (call_agent_world env (gpt_client self)
                (render_prompt cm1 chat_id m) (get_parent_id cm1 chat_id) w1)
    as Hw.
  destruct (call_agent _ _ _ _ w1) as [[e'|[rt' mid']] w2];
    simpl in Hok, Hw; [done|].
  simplify_eq. subst w1. cbn [fst snd manager outbox ticks session].
  by rewrite <- app_assoc.
Qed.

(** X13. When the agent call of a step returns, the store holds the user
    turn and then the assistant turn with the returned text, the returned
    text is the reply, the parent id of the chat becomes the returned id
    unless that is empty, and the other chats are untouched. *)
Theorem successful_step_records_exchange self upd msg m w rt mid :
  or_else (message upd) (edited_message upd) = Some msg →
  let chat_id := id (chat msg) in
  let cm1 := add_message (manager w) chat_id "user" m None
               (clock env (ticks w)) in
  let w1 := World cm1 (session w)
              (outbox w ++ [SendAction chat_id "typing"]) (S (ticks w)) in
  fst (call_agent env (gpt_client self) (render_prompt cm1 chat_id m)
         (get_parent_id cm1 chat_id) w1) = inr (rt, mid) →
  let res := process_message env self upd m w in
  manager (snd res)
  = add_message cm1 chat_id "assistant" rt (Some mid)
      (clock env (S (ticks w))) ∧
  get_parent_id (manager (snd res)) chat_id
  = (if bool_decide (mid ≠ EmptyString) then Some mid
     else get_parent_id (manager w) chat_id) ∧
  (∀ c, c ≠ chat_id →
        get_context (manager (snd res)) c = get_context (manager w) c ∧
        get_parent_id (manager (snd res)) c = get_parent_id (manager w) c) ∧
  outbox (snd res)
  = outbox w ++ [SendAction chat_id "typing"; ReplyText chat_id rt].
Proof.
  intros Hmsg chat_id cm1 w1 Hok res. subst res.
  rewrite (successful_step_manager self upd msg m w rt mid Hmsg Hok).
  fold chat_id. fold cm1. cbn [manager outbox].
  split; [done|]. subst cm1. unfold get_context, get_parent_id.
  split; [|split; [|done]].
  - rewrite !parent_ids_add_message, andb_false_r.
    by rewrite !bool_decide_eq_true_2 by done.
  - intros c Hc.
    rewrite !contexts_add_message, !parent_ids_add_message.
    by rewrite !bool_decide_eq_false_2 by done.
Qed.

(** X14. In a store of capacity at least 2 reached from an empty one, a
    successful step leaves the user turn and the assistant turn as the two
    newest entries of the chat's history, in that order. *)
Theorem successful_step_history self upd msg m w rt mid N ops :
  or_else (message upd) (edited_message upd) = Some msg →
  manager w = run (init N) ops → 2 ≤ N →
  let chat_id := id (chat msg) in
  let cm1 := add_message (manager w) chat_id "user" m None
               (clock env (ticks w)) in
  let w1 := World cm1 (session w)
              (outbox w ++ [SendAction chat_id "typing"]) (S (ticks w)) in
  fst (call_agent env (gpt_client self) (render_prompt cm1 chat_id m)
         (get_parent_id cm1 chat_id) w1) = inr (rt, mid) →
  ∃ older,
    get_context (manager (snd (process_message env self upd m w))) chat_id
    = older ++ [Turn "user" m (clock env (ticks w));
                Turn "assistant" rt (clock env (S (ticks w)))] ∧
    length older ≤ N - 2.
Proof.
  intros Hmsg Hrun HN chat_id cm1 w1 Hok.
  rewrite (successful_step_manager self upd msg m w rt mid Hmsg Hok).
  fold chat_id. cbn [manager]. subst cm1. rewrite Hrun.
  set (o1 := AddMessage chat_id "user" m None (clock env (ticks w))).
  set (o2 := AddMessage chat_id "assistant" rt (Some mid)
               (clock env (S (ticks w)))).
  set (l := turns_since_reset chat_id ops).
  exists (drop (length l + 2 - N) l).
  split; [|rewrite length_drop; lia].
  change (get_context (apply_op (apply_op (run (init N) ops) o1) o2) chat_id
          = drop (length l + 2 - N) l
            ++ [Turn "user" m (clock env (ticks w));
                Turn "assistant" rt (clock env (S (ticks w)))]).
  rewrite <- !run_snoc, get_context_run, !turns_since_reset_snoc.
  subst o1 o2. cbn [log_op]. rewrite !bool_decide_eq_true_2 by done.
  fold l. rewrite <- app_assoc; simpl. unfold window.
  rewrite length_app; simpl. by rewrite drop_app_le by lia.
Qed.

(** X15. The id returned by the agent threads the next request of the
    chat: after a step whose response carries a non-empty "id", the next
    step on that chat posts that id as "parent_message_id". *)
Theorem reply_id_threads_next_request self upd1 msg1 m1 upd2 msg2 m2 w
    (r : response) (d : gmap string string) (mid : string) :
  or_else (message upd1) (edited_message upd1) = Some msg1 →
  or_else (message upd2) (edited_message upd2) = Some msg2 →
  id (chat msg2) = id (chat msg1) →
  let chat_id := id (chat msg1) in
  let cm1 := add_message (manager w) chat_id "user" m1 None
               (clock env (ticks w)) in
  transport env (session w)
    (build_request (gpt_client self) (render_prompt cm1 chat_id m1)
       (get_parent_id cm1 chat_id)) = inr r →
  ¬ (400 ≤ status_code r < 600)%Z →
  json r = inr (JObject d) → d !! "id" = Some mid →
  mid ≠ EmptyString →
  let w' := snd (process_message env self upd1 m1 w) in
  ∃ req,
    session (snd (process_message env self upd2 m2 w')) = session w' ++ [req] ∧
    req_json req !! "parent_message_id" = Some mid.
Proof.
  intros Hmsg1 Hmsg2 Hchat chat_id cm1 Hpost Hst Hjson Hid Hmid w'.
  set (w1 := World cm1 (session w)
               (outbox w ++ [SendAction chat_id "typing"]) (S (ticks w))).
  assert (Hok : fst (call_agent env (gpt_client self)
                       (render_prompt cm1 chat_id m1)
                       (get_parent_id cm1 chat_id) w1)
                = inr (default "No response" (d !! "message"), mid)).
  { rewrite (call_agent_returns env _ _ _ w1 r d Hpost Hst Hjson).
    by rewrite Hid. }
  pose proof (successful_step_manager self upd1 msg1 m1 w _ mid Hmsg1 Hok)
    as Hw'.
  fold chat_id cm1 in Hw'. fold w' in Hw'.
  eexists. split; [apply (process_message_session self upd2 msg2 m2 w' Hmsg2)|].
  rewrite Hchat. fold chat_id. simpl. rewrite build_payload_parent.
  rewrite Hw'. cbn [manager]. unfold get_parent_id.
  rewrite parent_ids_add_message. rewrite !bool_decide_eq_true_2 by done.
  simpl. by rewrite !bool_decide_eq_true_2 by done.
Qed.

End ProcessMore.

Lemma process_message_one_request_one_reply_witness :
  let w := fresh_world hi_yo_store in
  let res := process_message (stub_env (inl (OtherException "boom")))
               sample_bot (text_update 7 "hello") "hello" w in
  fst res = inr () ∧
  (∃ req, session (snd res) = session w ++ [req]) ∧
  (∃ reply, outbox (snd res)
            = outbox w ++ [SendAction 7 "typing"; ReplyText 7 reply]).
Proof.
  intros w res.
  exact (process_message_one_request_one_reply
           (stub_env (inl (OtherException "boom"))) sample_bot
           (text_update 7 "hello") _ "hello" w eq_refl).
Defined.

Lemma process_message_posts_witness :
  let w := fresh_world hi_yo_store in
  ∃ req,
    session (snd (process_message hi_there_env sample_bot
                    (text_update 7 "hello") "hello" w)) = session w ++ [req] ∧
    req_url req = "https://agent.example/api/agents/acc/call" ∧
    req_json req !! "message"
    = Some (render_prompt (add_message hi_yo_store 7 "user" "hello" None "0")
              7 "hello") ∧
    req_json req !! "parent_message_id" = Some "p1".
Proof.
  intros w.
  exact (process_message_posts hi_there_env sample_bot
           (text_update 7 "hello") _ "hello" w eq_refl).
Defined.

Lemma successful_step_records_exchange_witness :
  let w := fresh_world hi_yo_store in
  let res := process_message hi_there_env sample_bot
               (text_update 7 "hello") "hello" w in
  get_parent_id (manager (snd res)) 7 = Some "abc123" ∧
  outbox (snd res) = [SendAction 7 "typing"; ReplyText 7 "hi there"].
Proof.
  intros w res.
  pose proof (successful_step_records_exchange hi_there_env sample_bot
                (text_update 7 "hello") _ "hello" w "hi there" "abc123"
                eq_refl eq_refl) as H.
  split; [exact (proj1 (proj2 H))|exact (proj2 (proj2 (proj2 H)))].
Defined.

Lemma successful_step_history_witness :
  let ops := [AddMessage 7 "user" "hi" None "t1";
              AddMessage 7 "assistant" "yo" (Some "p1") "t2"] in
  let w := fresh_world (run (init 2) ops) in
  2 ≤ 2 ∧
  ∃ older,
    get_context (manager (snd (process_message hi_there_env sample_bot
                                 (text_update 7 "hello") "hello" w))) 7
    = older ++ [Turn "user" "hello" "0"; Turn "assistant" "hi there" "1"] ∧
    length older ≤ 2 - 2.
Proof.
  intros ops w. split; [lia|].
  exact (successful_step_history hi_there_env sample_bot
           (text_update 7 "hello") _ "hello" w "hi there" "abc123" 2 ops
           eq_refl eq_refl (le_n 2) eq_refl).
Defined.

Lemma reply_id_threads_next_request_witness :
  let w := fresh_world (init 10) in
  let w' := snd (process_message hi_there_env sample_bot
                   (text_update 7 "hello") "hello" w) in
  ∃ req,
    session (snd (process_message hi_there_env sample_bot
                    (text_update 7 "again") "again" w')) = session w' ++ [req] ∧
    req_json req !! "parent_message_id" = Some "abc123".
Proof.
  intros w w'.
  assert (Hst : ¬ (400 ≤ 200 < 600)%Z) by lia.
  assert (Hne : "abc123" ≠ EmptyString) by discriminate.
  exact (reply_id_threads_next_request hi_there_env sample_bot
           (text_update 7 "hello") _ "hello" (text_update 7 "again") _ "again"
           w _ _ "abc123" eq_refl eq_refl eq_refl eq_refl Hst eq_refl eq_refl
           Hne).
Defined.

(** * Properties of the handlers *)

Lemma string_app_cons (c : Ascii.ascii) (s1 s2 : string) :
  String c s1 +:+ s2 = String c (s1 +:+ s2).
Proof. reflexivity. Qed.

Lemma prefix_app (e rest : string) : String.prefix e (e +:+ rest) = true.
Proof.
  induction e as [|c e IH]; [by destruct rest|].
  rewrite string_app_cons. simpl. by destruct (Ascii.ascii_dec c c).
Qed.

Lemma whitespace_nonempty (e : string) : e ∈ whitespace → e ≠ EmptyString.
Proof.
  intros He ->. apply (bool_decide_pack _) in He. by vm_compute in He.
Qed.

Lemma leading_space_none (s : string) :
  leading_space s = None →
  ∀ e, e ∈ whitespace → ∀ rest, s ≠ e +:+ rest.
Proof.
  intros Hnone e He rest ->. unfold leading_space in Hnone.
  apply list_elem_of_In in He.
  pose proof (find_none _ _ Hnone e He) as Hpre; simpl in Hpre.
  by rewrite prefix_app in Hpre.
Qed.

Lemma lstrip_from_clean (s : string) (skip : nat) :
  leading_space (lstrip_from skip s) = None.
Proof.
  revert skip. induction s as [|c s IH]; intros skip; [by vm_compute|].
  cbn [lstrip_from]. destruct skip as [|k]; [|apply IH].
  destruct (leading_space (String c s)) as [e|] eqn:Hlead; [apply IH|done].
Qed.

Lemma rstrip_clean (s : string) :
  ∀ e, e ∈ whitespace → ∀ rest, rstrip s ≠ rest +:+ e.
Proof.
  assert (Hnil : ∀ e, e ∈ whitespace → ∀ rest, EmptyString ≠ rest +:+ e).
  { intros e He [|c rest] Heq; [|by rewrite string_app_cons in Heq].
    by apply (whitespace_nonempty e He). }
  induction s as [|c s IH]; intros e He rest; [by apply Hnil|].
  cbn [rstrip]. case_bool_decide as Ht; [by apply Hnil|].
  destruct rest as [|c' rest]; rewrite ?string_app_cons.
  - intros Heq. apply Ht. change (EmptyString +:+ e) with e in Heq.
    by rewrite Heq.
  - intros [= _ Heq]. by apply (IH e He rest).
Qed.

Lemma rstrip_prefix (s : string) : ∃ rest, s = rstrip s +:+ rest.
Proof.
  induction s as [|c s [rest IH]]; [by exists EmptyString|].
  cbn [rstrip]. case_bool_decide.
  - by exists (String c s).
  - exists rest. by rewrite string_app_cons, <- IH.
Qed.

(** What [strip] returns neither starts nor ends with a white-space
    character. *)
Lemma strip_clean (s e : string) :
  e ∈ whitespace →
  (∀ rest, strip s ≠ e +:+ rest) ∧ (∀ rest, strip s ≠ rest +:+ e).
Proof.
  intros He. unfold strip. split; [|by apply rstrip_clean].
  intros rest Heq. destruct (rstrip_prefix (lstrip s)) as [suf Hs].
  rewrite Heq, string_app_assoc in Hs.
  by apply (leading_space_none (lstrip s) (lstrip_from_clean s 0) e He
              (rest +:+ suf)).
Qed.

Section Handlers.

Context (env : Env).
Implicit Types (self : TelegramBot) (w : world) (ctx : CallbackContext).


(** X17. [handle_message] leaves the world as it is, with nothing posted,
    recorded or sent, for a message without text or with an empty one, for
    a chat that is neither private nor a group or supergroup, and for a
    message outside a private chat that does not mention the bot. *)
Theorem handle_message_ignores self upd ctx msg w :
  or_else (message upd) (edited_message upd) = Some msg →
  truthy (text msg) = false ∨
  type (chat msg) ∉ ["private"; "group"; "supergroup"] ∨
  (type (chat msg) ≠ "private" ∧
   mentions ctx (default EmptyString (text msg)) = false) →
  handle_message env self upd ctx w = (inr (), w).
Proof.
  intros Hmsg Hcase. unfold handle_message. rewrite Hmsg.
  destruct (truthy (text msg)) eqn:Htext; simpl; [|done].
  destruct Hcase as [?|[Htype|[Htype Hmention]]]; [done|..].
  - apply not_elem_of_cons in Htype as [Hpriv Htype].
    by rewrite !bool_decide_eq_false_2 by done.
  - rewrite bool_decide_eq_false_2 by done.
    case_bool_decide; [|done].
    unfold mentions in Hmention.
    destruct (bot_username ctx) as [u|]; [|done]. by rewrite Hmention.
Qed.

(** X18. Whenever [handle_message] has any effect, the effect is that of
    one call of [process_message] with a non-empty text: the message's own
    text in a private chat; outside one the message mentions the bot, and
    the text handed on neither starts nor ends with a character that
    Python counts as white space. *)
Theorem handle_message_forwards self upd ctx w :
  handle_message env self upd ctx w ≠ (inr (), w) →
  ∃ msg t,
    or_else (message upd) (edited_message upd) = Some msg ∧
    t ≠ EmptyString ∧
    handle_message env self upd ctx w = process_message env self upd t w ∧
    (type (chat msg) = "private" → text msg = Some t) ∧
    (type (chat msg) ≠ "private" →
     mentions ctx (default EmptyString (text msg)) = true ∧
     ∀ e, e ∈ whitespace →
          (∀ rest, t ≠ e +:+ rest) ∧ (∀ rest, t ≠ rest +:+ e)).
Proof.
  unfold handle_message.
  destruct (or_else (message upd) (edited_message upd)) as [msg|] eqn:Hmsg;
    [|done].
  destruct (text msg) as [txt|] eqn:Htext; simpl; [|done].
  case_bool_decide as Hne; simpl; [|done].
  case_bool_decide as Hpriv.
  { intros _. exists msg, txt. by rewrite Htext. }
  case_bool_decide as Hgroup; [|done].
  destruct (bot_username ctx) as [u|] eqn:Hu; [|done].
  destruct (bool_decide (u ≠ EmptyString) && contains ("@" +:+ u) txt)
    eqn:Hmention; [|done].
  set (t := strip _).
  destruct (bool_decide_reflect (t ≠ EmptyString)) as [Ht|Ht]; [|done].
  intros _. exists msg, t. rewrite Htext; simpl.
  split; [done|]. split; [done|]. split; [done|]. split; [done|].
  intros _. split; [|intros e He; by apply strip_clean].
  unfold mentions. by rewrite Hu.
Qed.

(** X19. [/ask] without arguments never reaches the agent or the store:
    the only effect is the usage reply to the chat of the command. *)
Theorem ask_command_without_question self upd ctx msg w :
  message upd = Some msg →
  args ctx = None ∨ args ctx = Some [] →
  ask_command env self upd ctx w
  = (inr (),
     World (manager w) (session w)
       (outbox w ++ [ReplyText (id (chat msg))
                       "Please provide a question after /ask command."])
       (ticks w)).
Proof.
  intros Hmsg Hargs. unfold ask_command, reply_to_message.
  rewrite Hmsg. by destruct Hargs as [-> | ->].
Qed.

(** X20. [/resetc] forgets the chat of the command and nothing else: its
    history becomes empty and its parent id absent, the other chats keep
    theirs, no request is posted, and the confirmation is sent. *)
Theorem reset_command_forgets_chat upd msg w :
  message upd = Some msg →
  let chat_id := id (chat msg) in
  let res := reset_context_command upd w in
  fst res = inr () ∧
  get_context (manager (snd res)) chat_id = [] ∧
  get_parent_id (manager (snd res)) chat_id = None ∧
  (∀ c, c ≠ chat_id →
        get_context (manager (snd res)) c = get_context (manager w) c ∧
        get_parent_id (manager (snd res)) c = get_parent_id (manager w) c) ∧
  session (snd res) = session w ∧
  outbox (snd res)
  = outbox w ++ [ReplyText chat_id "Conversation context has been cleared."].
Proof.
  intros Hmsg chat_id res. subst res.
  unfold reset_context_command, effective_chat, reply_to_message.
  rewrite Hmsg; simpl. fold chat_id.
  unfold get_context, get_parent_id.
  rewrite !contexts_clear_context, !parent_ids_clear_context.
  rewrite !bool_decide_eq_true_2 by done.
  repeat split; try done.
  - rewrite contexts_clear_context. by rewrite bool_decide_eq_false_2.
  - rewrite parent_ids_clear_context. by rewrite bool_decide_eq_false_2.
Qed.

(** X21. After [/resetc] the thread starts anew: the next processing step
    on the chat posts a request without "parent_message_id". *)
Theorem reset_then_message_is_unthreaded self updr msgr upd msg m w :
  message updr = Some msgr →
  or_else (message upd) (edited_message upd) = Some msg →
  id (chat msg) = id (chat msgr) →
  let w' := snd (reset_context_command updr w) in
  ∃ req,
    session (snd (process_message env self upd m w')) = session w' ++ [req] ∧
    req_json req !! "parent_message_id" = None.
Proof.
  intros Hr Hmsg Hchat w'. eexists.
  split; [apply (process_message_session env self upd msg m w' Hmsg)|].
  simpl. rewrite build_payload_parent, Hchat. subst w'.
  unfold reset_context_command, effective_chat, reply_to_message.
  rewrite Hr; simpl. unfold get_parent_id.
  rewrite parent_ids_clear_context. by rewrite bool_decide_eq_true_2.
Qed.

(** X22. The commands reply through [update.message], which an update
    with only an edited message lacks: there [/resetc] still clears the
    chat's context but raises instead of confirming, and [/ask] without
    arguments raises without any effect. *)
Theorem commands_raise_on_edited_update self upd msg ctx w :
  message upd = None → edited_message upd = Some msg →
  reset_context_command upd w
  = (inl (none_has_no "reply_text"),
     World (clear_context (manager w) (id (chat msg)))
       (session w) (outbox w) (ticks w)) ∧
  (args ctx = None ∨ args ctx = Some [] →
   ask_command env self upd ctx w = (inl (none_has_no "reply_text"), w)).
Proof.
  intros Hnew Hed. split.
  - unfold reset_context_command, effective_chat, reply_to_message.
    by rewrite Hnew, Hed.
  - intros Hargs. unfold ask_command, reply_to_message.
    rewrite Hnew. by destruct Hargs as [-> | ->].
Qed.

End Handlers.

Lemma handle_message_forwards_witness :
  let nbsp := bytes [194; 160] in
  let wide := bytes [227; 128; 128] in
  let w := fresh_world (init 10) in
  let upd := chat_update 7 "group" ("@bot" +:+ nbsp +:+ "hi" +:+ wide) in
  let blank := chat_update 7 "group" ("@bot" +:+ nbsp) in
  handle_message hi_there_env sample_bot blank (bot_context []) w
  = (inr (), w) ∧
  handle_message hi_there_env sample_bot upd (bot_context []) w
  = process_message hi_there_env sample_bot upd "hi" w ∧
  ∃ msg t,
    or_else (message upd) (edited_message upd) = Some msg ∧
    handle_message hi_there_env sample_bot upd (bot_context []) w
    = process_message hi_there_env sample_bot upd t w ∧
    ∀ e, e ∈ whitespace → ∀ rest, t ≠ rest +:+ e.
Proof.
  intros nbsp wide w upd blank.
  split; [reflexivity|]. split; [reflexivity|].
  assert (Hacts : handle_message hi_there_env sample_bot upd (bot_context []) w
                  ≠ (inr (), w)).
  { intros Heq. apply (f_equal (λ res, length (outbox (snd res)))) in Heq.
    vm_compute in Heq. discriminate Heq. }
  destruct (handle_message_forwards hi_there_env sample_bot upd
              (bot_context []) w Hacts)
    as (msg & t & Hmsg & _ & Hfwd & _ & Hgroup).
  exists msg, t. split; [exact Hmsg|]. split; [exact Hfwd|].
  assert (Hnp : type (chat msg) ≠ "private").
  { injection Hmsg as <-. discriminate. }
  intros e He. exact (proj2 (proj2 (Hgroup Hnp) e He)).
Defined.

Lemma handle_message_ignores_witness :
  let upd := chat_update 7 "supergroup" "hello everyone" in
  let w := fresh_world hi_yo_store in
  mentions (bot_context []) "hello everyone" = false ∧
  handle_message hi_there_env sample_bot upd (bot_context []) w = (inr (), w).
Proof.
  intros upd w. split; [reflexivity|].
  assert (Hnp : "supergroup" ≠ "private") by discriminate.
  exact (handle_message_ignores hi_there_env sample_bot upd (bot_context [])
           _ w eq_refl (or_intror (or_intror (conj Hnp eq_refl)))).
Defined.

Lemma ask_command_without_question_witness :
  let upd := chat_update 7 "group" "/ask" in
  let w := fresh_world hi_yo_store in
  ask_command hi_there_env sample_bot upd (bot_context []) w
  = (inr (),
     World hi_yo_store [] 
       [ReplyText 7 "Please provide a question after /ask command."] 0).
Proof.
  intros upd w.
  exact (ask_command_without_question hi_there_env sample_bot upd
           (bot_context []) _ w eq_refl (or_intror eq_refl)).
Defined.

Lemma reset_command_forgets_chat_witness :
  let upd := chat_update 7 "private" "/resetc" in
  let res := reset_context_command upd (fresh_world hi_yo_store) in
  fst res = inr () ∧
  get_context (manager (snd res)) 7 = [] ∧
  get_parent_id (manager (snd res)) 7 = None.
Proof.
  intros upd res.
  pose proof (reset_command_forgets_chat upd _ (fresh_world hi_yo_store)
                eq_refl) as H.
  split; [exact (proj1 H)|].
  split; [exact (proj1 (proj2 H))|exact (proj1 (proj2 (proj2 H)))].
Defined.

Lemma reset_then_message_is_unthreaded_witness :
  let w' := snd (reset_context_command (chat_update 7 "private" "/resetc")
                   (fresh_world hi_yo_store)) in
  ∃ req,
    session (snd (process_message hi_there_env sample_bot
                    (text_update 7 "hello") "hello" w')) = session w' ++ [req] ∧
    req_json req !! "parent_message_id" = None.
Proof.
  intros w'.
  exact (reset_then_message_is_unthreaded hi_there_env sample_bot
           (chat_update 7 "private" "/resetc") _ (text_update 7 "hello") _
           "hello" (fresh_world hi_yo_store) eq_refl eq_refl eq_refl).
Defined.

Lemma commands_raise_on_edited_update_witness :
  let upd := edited_update 7 "private" "/resetc" in
  let res := reset_context_command upd (fresh_world hi_yo_store) in
  fst res = inl (none_has_no "reply_text") ∧
  get_context (manager (snd res)) 7 = [] ∧
  outbox (snd res) = [].
Proof.
  intros upd res.
  pose proof (proj1 (commands_raise_on_edited_update hi_there_env sample_bot
                       upd _ (bot_context []) (fresh_world hi_yo_store)
                       eq_refl eq_refl)) as H.
  subst res. rewrite H. repeat split.
Defined.
